(** * MovieLabs AI dashboard backend: a shallow embedding of the request handlers

    The repository holds several generations of one small backend; four are
    embedded here:

    - [Lambda]   [lambda/index.mjs], the AWS Lambda handler that replaces the
                 Express token endpoints;
    - [Express]  the first half of [server.mjs]: token endpoints read their
                 credentials from the environment, [/chat] streams one
                 completion;
    - [Session]  the second half of [server.mjs]: [/chat] keeps a per-session
                 history and answers [search] tool calls;
    - [Keyword]  the variant whose [/chat] filters the dataset by the words
                 of the message.

    Handlers are embedded as programs of a small state-and-exception monad.
    Everything a handler does to the outside (calls on the Express [res]
    object, outbound HTTP calls, console output) is appended to a trace of
    [effect]s; everything the outside answers comes from a [World] record of
    oracles.  JavaScript values are embedded with their truthiness and string
    conversion, because the handlers branch on [!x] and build requests with
    template literals; the conversion can throw, and a handler that converts
    a value it has not checked can be made to leave through its [catch].

    Running a handler from a state to a state describes a request that no
    other request overlaps.  What overlapping requests do to the session
    map is described apart, in [Overlap]. *)

From Stdlib Require Import String Ascii ZArith List Bool Lia.
From stdpp Require Import base option list gmap strings pretty.

#[local] Set Warnings "-register-all".

Local Open Scope Z_scope.
Local Open Scope string_scope.
Local Open Scope list_scope.

(** ** Text

    A JavaScript string is a sequence of UTF-16 code units.  Text is held
    here as the bytes of its UTF-8 form, with a surrogate that stands alone
    held in the three-byte form of its code unit, so that every string has
    one representation.  Operations that count, count code units. *)

Definition nl : string := String (ascii_of_nat 10) EmptyString.
Definition dq : string := String (ascii_of_nat 34) EmptyString.
Definition backslash : string := String (ascii_of_nat 92) EmptyString.

(** [xs.join(sep)] on an array of strings. *)
Fixpoint join (sep : string) (xs : list string) : string :=
  match xs with
  | [] => ""
  | [x] => x
  | x :: rest => x +:+ sep +:+ join sep rest
  end.

(** The code units of the character that starts with byte [b]: one for a
    character of one, two or three bytes, two (a surrogate pair) for a
    character of four bytes, none for a continuation byte. *)
Definition units_of_lead (b : nat) : nat :=
  if Nat.ltb b 128 then 1
  else if Nat.ltb b 192 then 0
  else if Nat.ltb b 240 then 1
  else 2.

(** The first code unit of the four-byte character whose first three bytes
    are given: a high surrogate, in its three-byte form. *)
Definition high_surrogate (b0 b1 b2 : nat) : string :=
  let top := ((b0 mod 8) * 256 + (b1 mod 64) * 4 + (b2 mod 64) / 16 - 64)%nat in
  String (ascii_of_nat 237)
    (String (ascii_of_nat (160 + top / 64)) (String (ascii_of_nat (128 + top mod 64)) "")).

(** The first [n] code units of [s].  A cut in the middle of a surrogate
    pair keeps its first half. *)
Fixpoint take_units (n : nat) (s : string) : string :=
  match s with
  | EmptyString => ""
  | String c rest =>
      match units_of_lead (nat_of_ascii c), n with
      | O, _ => String c (take_units n rest)
      | _, O => ""
      | S O, S n' => String c (take_units n' rest)
      | _, S O =>
          match rest with
          | String c1 (String c2 _) =>
              high_surrogate (nat_of_ascii c) (nat_of_ascii c1) (nat_of_ascii c2)
          | _ => ""
          end
      | _, S (S n') => String c (take_units n' rest)
      end
  end.

(** [s.slice(0, n)] for a non-negative [n]. *)
Definition slice0 (n : nat) (s : string) : string := take_units n s.

(** ** JavaScript values

    The values [JSON.parse] can return.  [undefined] is not a JSON value: an
    expression that may be [undefined] has type [option value] and [None]
    stands for it.

    A number is held as the text [Number.prototype.toString] gives for it
    (["12"], ["-0.5"], ["1e+21"]; ["0"] for both zeros), which is also what
    [JSON.stringify] prints: the handlers convert numbers to text and test
    them for zero, and do nothing else with them.

    An object is held as its own properties in the order the engine
    enumerates them, which is the order of [Object.values] and of
    [JSON.stringify]: names that are array indices first, in ascending
    order, then the other names in the order they were created.  Names are
    distinct. *)
Inductive value : Type :=
| VNull
| VBool (b : bool)
| VNum (shown : string)
| VStr (s : string)
| VArr (items : list value)
| VObj (fields : list (string * value)).

(** The own property [k] of an object. *)
Fixpoint assoc {A : Type} (k : string) (kvs : list (string * A)) : option A :=
  match kvs with
  | [] => None
  | (k', v) :: rest => if String.eqb k k' then Some v else assoc k rest
  end.

(** The array index a property name stands for: the name is the decimal
    form, without a leading zero, of an integer below [2^32 - 1]. *)
Fixpoint digits_value (s : string) (acc : N) : option N :=
  match s with
  | EmptyString => Some acc
  | String c rest =>
      let d := nat_of_ascii c in
      if Nat.leb 48 d && Nat.leb d 57
      then digits_value rest (acc * 10 + N.of_nat (d - 48))%N
      else None
  end.

Definition array_index (k : string) : option N :=
  match k with
  | EmptyString => None
  | String c rest =>
      if Ascii.eqb c "0" && negb (String.eqb rest "") then None
      else match digits_value k 0%N with
           | Some n => if N.ltb n 4294967295 then Some n else None
           | None => None
           end
  end.

(** Whether a new property [k] is enumerated before the property [k']. *)
Definition enumerated_before (k k' : string) : bool :=
  match array_index k, array_index k' with
  | Some i, Some j => N.ltb i j
  | Some _, None => true
  | None, _ => false
  end.

(** [o[k] = v]: the value of a property that is there is replaced where it
    stands; a new array index goes to its place among the indices, and any
    other new name to the end. *)
Fixpoint define_property {A : Type} (k : string) (v : A) (props : list (string * A))
  : list (string * A) :=
  match props with
  | [] => [(k, v)]
  | (k', v') :: rest =>
      if String.eqb k k' then (k, v) :: rest
      else if enumerated_before k k' then (k, v) :: (k', v') :: rest
      else (k', v') :: define_property k v rest
  end.

(** [!!x] *)
Definition truthy (x : option value) : bool :=
  match x with
  | None | Some VNull => false
  | Some (VBool b) => b
  | Some (VNum shown) => negb (String.eqb shown "0")
  | Some (VStr s) => negb (String.eqb s "")
  | Some (VArr _) | Some (VObj _) => true
  end.

(** [typeof x === "string"] *)
Definition is_string (x : option value) : bool :=
  match x with Some (VStr _) => true | _ => false end.

(** ** Exceptions *)
Inductive exn : Type :=
| TypeError                 (* property read on null or undefined; a failed conversion *)
| SyntaxError               (* JSON.parse *)
| Error (msg : string)      (* throw new Error(msg) *)
| NetworkError              (* a rejected fetch, OpenAI or search call *)
| HeadersSent.              (* ERR_HTTP_HEADERS_SENT *)

(** [`${x}`]: the string conversion a template literal applies.

    An object is converted by its [toString] method, then by [valueOf].  No
    value that [JSON.parse] returns can be called, so an object with an own
    property named [toString] hides the inherited method and has none of
    its own: the inherited [valueOf] is tried, returns the object, and the
    conversion throws a [TypeError].  Every other object is converted by
    [Object.prototype.toString].

    An array is joined with commas, [null] elements giving the empty string
    and the others their own conversion, which can throw in its turn. *)
Fixpoint value_to_string (v : value) : exn + string :=
  match v with
  | VNull => inr "null"
  | VBool true => inr "true"
  | VBool false => inr "false"
  | VNum shown => inr shown
  | VStr s => inr s
  | VArr items =>
      (fix elements (xs : list value) (acc : list string) : exn + string :=
         match xs with
         | [] => inr (join "," (rev acc))
         | x :: rest =>
             match match x with
                   | VNull => inr ""
                   | _ => value_to_string x
                   end with
             | inl e => inl e
             | inr s => elements rest (s :: acc)
             end
         end) items []
  | VObj fields =>
      match assoc "toString" fields with
      | Some _ => inl TypeError
      | None => inr "[object Object]"
      end
  end.

Definition to_string (x : option value) : exn + string :=
  match x with
  | None => inr "undefined"
  | Some v => value_to_string v
  end.

(** [x.k]: a property read.  It throws on [null] and [undefined]; on the
    other values it finds own properties of objects only, which is all the
    handlers ask for (none of their keys is an index or a prototype member). *)
Definition get_prop (x : option value) (k : string) : exn + option value :=
  match x with
  | None | Some VNull => inl TypeError
  | Some (VObj fields) => inr (assoc k fields)
  | Some _ => inr None
  end.

(** ** JSON.stringify *)

Definition hex_digit (n : nat) : ascii :=
  ascii_of_nat (if Nat.ltb n 10 then 48 + n else 87 + n)%nat.

Definition escape_char (c : ascii) : string :=
  let n := nat_of_ascii c in
  if Nat.eqb n 34 then backslash +:+ dq
  else if Nat.eqb n 92 then backslash +:+ backslash
  else if Nat.eqb n 8 then backslash +:+ "b"
  else if Nat.eqb n 12 then backslash +:+ "f"
  else if Nat.eqb n 10 then backslash +:+ "n"
  else if Nat.eqb n 13 then backslash +:+ "r"
  else if Nat.eqb n 9 then backslash +:+ "t"
  else if Nat.ltb n 32 then
    backslash +:+ "u00"
    +:+ String (hex_digit (n / 16)) (String (hex_digit (n mod 16)) "")
  else String c "".

(** [\udxxx] for the surrogate whose three-byte form ends with the bytes
    given. *)
Definition escape_surrogate (b1 b2 : nat) : string :=
  let low := ((b1 mod 64) * 64 + b2 mod 64)%nat in
  backslash +:+ "ud"
  +:+ String (hex_digit (low / 256))
        (String (hex_digit ((low / 16) mod 16)) (String (hex_digit (low mod 16)) "")).

(** A surrogate that stands alone is escaped; everything else above the
    control characters is copied. *)
Fixpoint escape (s : string) : string :=
  match s with
  | EmptyString => ""
  | String c rest =>
      match rest with
      | String c1 (String c2 rest2) =>
          if Nat.eqb (nat_of_ascii c) 237 && Nat.leb 160 (nat_of_ascii c1)
          then escape_surrogate (nat_of_ascii c1) (nat_of_ascii c2) +:+ escape rest2
          else escape_char c +:+ escape rest
      | _ => escape_char c +:+ escape rest
      end
  end.

Definition quote (s : string) : string := dq +:+ escape s +:+ dq.

Fixpoint JSON_stringify (v : value) : string :=
  match v with
  | VNull => "null"
  | VBool true => "true"
  | VBool false => "false"
  | VNum shown => shown
  | VStr s => quote s
  | VArr items => "[" +:+ join "," (List.map JSON_stringify items) +:+ "]"
  | VObj fields =>
      "{" +:+ join "," (List.map (fun kv => quote (fst kv) +:+ ":" +:+ JSON_stringify (snd kv))
                                 fields) +:+ "}"
  end.

(** [{ error: msg }] *)
Definition error_object (msg : string) : value := VObj [("error", VStr msg)].

(** ** The outside world *)

(** The body of an outbound request: a [URLSearchParams] form or a string. *)
Inductive payload : Type :=
| Form (fields : list (string * string))
| Text (s : string).

Record request : Type := {
  url : string;
  method : string;
  headers : list (string * string);
  body : payload;
}.

(** What [fetch] resolves to, for a response whose body arrives:
    [response.text()] resolves to [text] and [response.json()] is
    [JSON.parse] of it. *)
Record response : Type := {
  ok : bool;
  status : Z;
  text : string;
}.

(** A chat turn, [{ role, content }]. *)
Inductive speaker : Type := system | user | assistant.

Record turn : Type := {
  role : speaker;
  content : option value;
}.

Record completion_request : Type := {
  model : string;
  stream : bool;
  temperature : string;
  tools : list string;          (* names of the functions on offer *)
  messages : list turn;
}.

(** [toolCall.function] *)
Record fn_call : Type := {
  name : option string;
  arguments : option string;
}.

(** One element of the completion stream, read the way the handlers read it:
    [delta_content] is [chunk.choices?.[0]?.delta?.content] and
    [delta_tool_call] is [chunk.choices?.[0]?.delta?.tool_calls?.[0]], each
    [None] when the chain of optional reads gives [undefined] or [null];
    the inner option is [toolCall.function]. *)
Record chunk : Type := {
  delta_content : option string;
  delta_tool_call : option (option fn_call);
}.

(** How the asynchronous iterator stops: it is exhausted, or it throws. *)
Inductive stream_end : Type := Done | Broken.

(** What [openai.chat.completions.create] resolves to: a stream of chunks,
    or a response whose [choices[i].message.content] are listed. *)
Inductive completion : Type :=
| Streamed (chunks : list chunk) (ending : stream_end)
| Completed (choices : list (option string)).

(** One entry of [searchResults.results]. *)
Record search_result : Type := {
  title : string;
  link : string;                (* r.url *)
  description : option string;
}.

(** The answers of the outside world.  Every oracle but [JSON_parse] takes
    the number of effects the request has produced so far, so that two calls
    with the same argument may be answered differently.  [None] is a
    rejected promise (for [JSON_parse], a [SyntaxError]). *)
Record World : Type := {
  JSON_parse : string -> option value;
  fetch : nat -> request -> option response;
  completions_create : nat -> completion_request -> option completion;
  google_search : nat -> option value -> option (list search_result);
}.

(** ** Effects *)

Inductive log_arg : Type :=
| LStr (s : string)
| LNum (n : Z)
| LErr (e : exn).

Inductive effect : Type :=
| SetHeader (k v : string)                 (* res.setHeader(k, v) *)
| Status (code : Z)                        (* res.status(code) *)
| Json (body : value)                      (* res.json(body) *)
| Write (fragment : string)                (* res.write(fragment) *)
| End (fragment : option string)           (* res.end(fragment) *)
| Fetch (rq : request)                     (* fetch(url, options) *)
| Completion (rq : completion_request)     (* openai.chat.completions.create *)
| Search (q : option value)                (* google.search(q, ...) *)
| Console (level : string) (args : list log_arg).

(** A row of the dataset: the record object the CSV parser builds for a
    line, held like any object as its own properties in the order of
    enumeration.  [csv_record] below builds it from the header. *)
Definition row : Type := list (string * string).

(** The record of a line under [columns: true]: the cells are assigned to
    the names of the header, from left to right. *)
Definition csv_record (header cells : list string) : row :=
  fold_left (fun record kv => define_property (fst kv) (snd kv) record)
    (combine header cells) [].

(** The state of the server process: its globals and what it has done. *)
Record state : Type := {
  dataset : list row;
  fullDatasetDump : string;
  sessions : gmap (option string) (list turn);
  trace : list effect;
}.

Definition with_trace (t : list effect) (s : state) : state :=
  {| dataset := dataset s; fullDatasetDump := fullDatasetDump s;
     sessions := sessions s; trace := t |}.

Definition with_sessions (m : gmap (option string) (list turn)) (s : state) : state :=
  {| dataset := dataset s; fullDatasetDump := fullDatasetDump s;
     sessions := m; trace := trace s |}.

Definition initial : state :=
  {| dataset := []; fullDatasetDump := ""; sessions := ∅; trace := [] |}.

(** ** The monad: state, and exceptions that keep the state *)

Definition M (A : Type) : Type := state -> (exn + A) * state.

Definition ret {A : Type} (a : A) : M A := fun s => (inr a, s).

Definition bind {A B : Type} (m : M A) (k : A -> M B) : M B :=
  fun s => match m s with
           | (inr a, s') => k a s'
           | (inl e, s') => (inl e, s')
           end.

Definition throw {A : Type} (e : exn) : M A := fun s => (inl e, s).

(** [try { m } catch (err) { h err }] *)
Definition try_catch {A : Type} (m : M A) (h : exn -> M A) : M A :=
  fun s => match m s with
           | (inr a, s') => (inr a, s')
           | (inl e, s') => h e s'
           end.

(** Lift a computation that can throw and has no other effect. *)
Definition lift {A : Type} (r : exn + A) : M A :=
  match r with inl e => throw e | inr a => ret a end.

(** [`${x}`] where it is evaluated: the conversion, which can throw. *)
Definition template (x : option value) : M string := lift (to_string x).

Declare Scope monad_scope.
Delimit Scope monad_scope with monad.
Notation "'let*' x ':=' m 'in' k" := (bind m (fun x => k))
  (at level 10, x name, m at level 100, k at level 200) : monad_scope.
Notation "m ;; k" := (bind m (fun _ => k))
  (at level 100, k at level 200, right associativity) : monad_scope.
Local Open Scope monad_scope.

Definition emit (e : effect) : M unit :=
  fun s => (inr tt, with_trace (trace s ++ [e]) s).

(** The clock the oracles read. *)
Definition now : M nat := fun s => (inr (length (trace s)), s).

Definition console (level : string) (args : list log_arg) : M unit :=
  emit (Console level args).

Definition parse (w : World) (s : string) : exn + value :=
  match JSON_parse w s with
  | Some v => inr v
  | None => inl SyntaxError
  end.

Definition call_fetch (w : World) (rq : request) : M response :=
  let* t := now in
  emit (Fetch rq) ;;
  match fetch w t rq with
  | Some r => ret r
  | None => throw NetworkError
  end.

Definition call_create (w : World) (rq : completion_request) : M completion :=
  let* t := now in
  emit (Completion rq) ;;
  match completions_create w t rq with
  | Some c => ret c
  | None => throw NetworkError
  end.

Definition call_search (w : World) (q : option value) : M (list search_result) :=
  let* t := now in
  emit (Search q) ;;
  match google_search w t q with
  | Some rs => ret rs
  | None => throw NetworkError
  end.

(** [response.json()] *)
Definition response_json (w : World) (r : response) : M value :=
  lift (parse w (text r)).

(** *** The Express response object, read off the trace *)

Definition sends_headers (e : effect) : bool :=
  match e with
  | Json _ | Write _ | End _ => true
  | _ => false
  end.

(** [res.headersSent] *)
Definition headersSent : M bool :=
  fun s => (inr (existsb sends_headers (trace s)), s).

Definition res_setHeader (k v : string) : M unit :=
  let* sent := headersSent in
  if sent then throw HeadersSent else emit (SetHeader k v).

(** [res.status(code).json(body)]; [json] sets a header first. *)
Definition res_status_json (code : Z) (body : value) : M unit :=
  emit (Status code) ;;
  let* sent := headersSent in
  if sent then throw HeadersSent else emit (Json body).

Definition res_json (body : value) : M unit :=
  let* sent := headersSent in
  if sent then throw HeadersSent else emit (Json body).

Definition res_write (fragment : string) : M unit := emit (Write fragment).
Definition res_end (fragment : option string) : M unit := emit (End fragment).

(** Run a handler on a fresh request: the trace starts empty. *)
Definition run {A : Type} (m : M A) (s : state) : (exn + A) * state :=
  m (with_trace [] s).

(** ** Process configuration: [process.env] *)

Record env : Type := {
  TENANT_ID : option string;
  CLIENT_ID : option string;
  CLIENT_SECRET : option string;
}.

(** Truthiness of something that is a string or [undefined]. *)
Definition nonempty (x : option string) : bool :=
  match x with
  | Some s => negb (String.eqb s "")
  | None => false
  end.

(** [`${x}`] for a string or [undefined]. *)
Definition show (x : option string) : string :=
  match x with
  | Some s => s
  | None => "undefined"
  end.

(** [a || b] where [b] is a string. *)
Definition or_else (a : option string) (b : string) : string :=
  match a with
  | Some s => if String.eqb s "" then b else s
  | None => b
  end.

Definition powerbi_scope : string := "https://analysis.windows.net/powerbi/api/.default".

Definition authUrl (tenant : string) : string :=
  "https://login.microsoftonline.com/" +:+ tenant +:+ "/oauth2/v2.0/token".

Definition generateTokenUrl (groupId reportId : string) : string :=
  "https://api.powerbi.com/v1.0/myorg/groups/" +:+ groupId +:+ "/reports/" +:+ reportId
  +:+ "/GenerateToken".

Definition auth_request (tenant client_id client_secret : string) : request :=
  {| url := authUrl tenant;
     method := "POST";
     headers := [("Content-Type", "application/x-www-form-urlencoded")];
     body := Form [("grant_type", "client_credentials");
                   ("client_id", client_id);
                   ("client_secret", client_secret);
                   ("scope", powerbi_scope)] |}.

(** The request of the embed route; [bearer] is the text the template
    literal of the header has made of the token. *)
Definition embed_request (groupId reportId bearer : string) : request :=
  {| url := generateTokenUrl groupId reportId;
     method := "POST";
     headers := [("Content-Type", "application/json");
                 ("Authorization", "Bearer " +:+ bearer)];
     body := Text (JSON_stringify (VObj [("accessLevel", VStr "View")])) |}.

(** ** lambda/index.mjs *)
Module Lambda.

Definition CORS_HEADERS : list (string * string) :=
  [("Access-Control-Allow-Origin", "*");
   ("Access-Control-Allow-Headers", "Content-Type");
   ("Access-Control-Allow-Methods", "OPTIONS,POST")].

Definition GROUP_ID : string := "4c6a6199-2d9c-423c-a366-7e72edc983ad".
Definition REPORT_ID : string := "9f92cc54-8318-44c4-a671-a020ea14ef56".

(** The fields of the Lambda event the handler reads: [ev_method] is
    [event.requestContext.http.method], [ev_body] is [event.body]. *)
Record event : Type := {
  ev_method : option string;
  httpMethod : option string;
  rawPath : option string;
  path : option string;
  ev_body : option string;
}.

(** What the handler returns to the gateway. *)
Record result : Type := {
  statusCode : Z;
  out_headers : list (string * string);
  out_body : string;
}.

Definition json_result (code : Z) (body : value) : result :=
  {| statusCode := code;
     out_headers := CORS_HEADERS ++ [("Content-Type", "application/json")];
     out_body := JSON_stringify body |}.

(** [path.split("?")[0]] *)
Fixpoint before_query (s : string) : string :=
  match s with
  | EmptyString => ""
  | String c rest => if Ascii.eqb c "?" then "" else String c (before_query rest)
  end.

(** [s.endsWith("/")] *)
Fixpoint ends_with_slash (s : string) : bool :=
  match s with
  | EmptyString => false
  | String c EmptyString => Ascii.eqb c "/"
  | String _ rest => ends_with_slash rest
  end.

(** [s.slice(0, -1)] *)
Fixpoint drop_last (s : string) : string :=
  match s with
  | EmptyString => ""
  | String _ EmptyString => ""
  | String c rest => String c (drop_last rest)
  end.

Definition normalizePath (path : string) : string :=
  if String.eqb path "" then "/"
  else
    let noQuery := before_query path in
    if ends_with_slash noQuery && negb (String.eqb noQuery "/")
    then drop_last noQuery
    else noQuery.

Definition handleAuthToken (w : World) (e : env) : M result :=
  if negb (nonempty (TENANT_ID e)) || negb (nonempty (CLIENT_ID e))
     || negb (nonempty (CLIENT_SECRET e))
  then
    console "error" [LStr "Missing Azure AD env vars"] ;;
    ret (json_result 500
           (error_object "Server is missing TENANT_ID, CLIENT_ID, or CLIENT_SECRET"))
  else
    let* response :=
      call_fetch w (auth_request (show (TENANT_ID e)) (show (CLIENT_ID e))
                                 (show (CLIENT_SECRET e))) in
    if negb (ok response) then
      console "error" [LStr "Auth token request failed:"; LNum (status response);
                       LStr (text response)] ;;
      ret (json_result 500 (error_object "Failed to fetch auth token"))
    else
      let* data := response_json w response in
      ret (json_result 200 data).

(** Nothing here is inside a [try] of its own: a token that does not
    convert, like a call that is rejected, leaves through the [catch] of
    [handler]. *)
Definition handleEmbedToken (w : World) (body : value) : M result :=
  let* authToken := lift (get_prop (Some body) "authToken") in
  if negb (truthy authToken) then
    ret (json_result 400 (error_object "Missing 'authToken' in request body"))
  else
    let* bearer := template authToken in
    let* response := call_fetch w (embed_request GROUP_ID REPORT_ID bearer) in
    if negb (ok response) then
      console "error" [LStr "Embed token request failed:"; LNum (status response);
                       LStr (text response)] ;;
      ret (json_result 500 (error_object "Failed to get embed token"))
    else
      let* data := response_json w response in
      ret (json_result 200 data).

(** [event?.requestContext?.http?.method || event.httpMethod || "GET"] *)
Definition request_method (ev : event) : string :=
  or_else (ev_method ev) (or_else (httpMethod ev) "GET").

(** [event?.rawPath || event?.path || "/"] *)
Definition request_path (ev : event) : string :=
  or_else (rawPath ev) (or_else (path ev) "/").

(** [method === "POST" && normalizePath(path) === route] *)
Definition is_post (ev : event) (route : string) : bool :=
  String.eqb (request_method ev) "POST"
  && String.eqb (normalizePath (request_path ev)) route.

(** The block that parses [event.body]; a body that does not parse is
    logged and read as [{}]. *)
Definition request_body (w : World) (ev : event) : M value :=
  if nonempty (ev_body ev) then
    try_catch (lift (parse w (show (ev_body ev))))
      (fun err =>
         console "error" [LStr "Failed to parse JSON body:"; LErr err] ;;
         ret (VObj []))
  else ret (VObj []).

Definition handler (w : World) (e : env) (ev : event) : M result :=
  try_catch
    (if String.eqb (request_method ev) "OPTIONS" then
       ret {| statusCode := 200; out_headers := CORS_HEADERS; out_body := "" |}
     else
       let* body := request_body w ev in
       if is_post ev "/auth-token" then handleAuthToken w e
       else if is_post ev "/embed-token" then handleEmbedToken w body
       else ret (json_result 404 (error_object "Not found")))
    (fun err =>
       console "error" [LStr "Unhandled error in handler:"; LErr err] ;;
       ret (json_result 500 (error_object "Internal server error"))).

(** The value [request_body] returns, without its log line. *)
Definition parsed_body (w : World) (ev : event) : value :=
  if nonempty (ev_body ev) then
    match JSON_parse w (show (ev_body ev)) with
    | Some v => v
    | None => VObj []
    end
  else VObj [].

End Lambda.

(** ** State accessors *)

Definition get_dataset : M (list row) := fun s => (inr (dataset s), s).
Definition get_fullDatasetDump : M string := fun s => (inr (fullDatasetDump s), s).

Definition set_dataset (rows : list row) : M unit :=
  fun s => (inr tt, {| dataset := rows; fullDatasetDump := fullDatasetDump s;
                       sessions := sessions s; trace := trace s |}).

Definition set_fullDatasetDump (dump : string) : M unit :=
  fun s => (inr tt, {| dataset := dataset s; fullDatasetDump := dump;
                       sessions := sessions s; trace := trace s |}).

(** [sessions.get(id)] and [sessions.set(id, history)] *)
Definition sessions_get (id : option string) : M (option (list turn)) :=
  fun s => (inr (sessions s !! id), s).

Definition sessions_set (id : option string) (history : list turn) : M unit :=
  fun s => (inr tt, with_sessions (<[id := history]> (sessions s)) s).

(** ** Iterating a completion: [for await (const chunk of completion)] *)

Fixpoint for_each {A : Type} (chunks : list chunk) (body : chunk -> A -> M A) (acc : A) : M A :=
  match chunks with
  | [] => ret acc
  | c :: rest => let* acc' := body c acc in for_each rest body acc'
  end.

Definition for_await {A : Type} (c : completion) (body : chunk -> A -> M A) (acc : A) : M A :=
  match c with
  | Streamed chunks ending =>
      let* acc' := for_each chunks body acc in
      match ending with
      | Done => ret acc'
      | Broken => throw NetworkError
      end
  | Completed _ => throw TypeError
  end.

(** The schema of the one tool on offer is fixed; requests list its name. *)
Definition search_tool : list string := ["search"].

Definition event_stream_headers : M unit :=
  res_setHeader "Content-Type" "text/event-stream" ;;
  res_setHeader "Cache-Control" "no-cache" ;;
  res_setHeader "Connection" "keep-alive".

(** The body of a [/chat] request after [express.json()].  The interface
    gives [sessionId] as an optional string; [message] is left untyped
    because the handlers test it. *)
Record chat_body : Type := {
  message : option value;
  sessionId : option string;
}.

(** ** server.mjs, first half *)
Module Express.

(** The filter of [loadDataset]; a field of a parsed row is a string, or
    [undefined] when the column does not exist. *)
Definition complete (r : row) : bool :=
  nonempty (assoc "INFRA_ID" r) && nonempty (assoc "NAME" r)
  && nonempty (assoc "AI_TYPE" r) && nonempty (assoc "TASKS" r).

(** [file] is what [parse(fs.readFileSync(...), {...})] evaluates to: the
    parsed rows, or the exception of a missing or malformed file.  The
    keyword-filter variant of the server has this same function. *)
Definition loadDataset (file : exn + list row) : M unit :=
  try_catch
    (let* parsed := lift file in
     let rows := List.filter complete parsed in
     set_dataset rows ;;
     console "log" [LStr ("✅ Loaded " +:+ pretty (length rows) +:+ " valid rows")])
    (fun err => console "error" [LStr "❌ Failed to load CSV:"; LErr err]).

Definition row_object (r : row) : value :=
  VObj (List.map (fun kv => (fst kv, VStr (snd kv))) r).

Definition systemPrompt : string :=
  join nl
    [""; "You are ME-AI, a scoped assistant that ONLY answers questions based on the dataset of AI infrastructure tools provided.";
     "";
     "## ANALYSIS BEHAVIOR (DATA SCIENTIST MODE)";
     "- Act like a data scientist: filter, group, summarize, compare";
     "- Use frequency, trends, ranges, and clustering across columns";
     "- Be precise and structured in how you answer";
     "- Reference column names exactly (e.g., AI_TYPE, GENERATED_OUTPUT)";
     "";
     "## IDENTIFIERS";
     "- Each row includes a unique identifier: INFRA_ID";
     "- You can use INFRA_ID to filter, lookup, compare, or cross-reference rows";
     "- If a user asks " +:+ dq +:+ "tell me about tool X" +:+ dq +:+ " or " +:+ dq
       +:+ "what is this ID" +:+ dq +:+ ", find it using either NAME or INFRA_ID";
     "";
     "## INTERNET ACCESS RULE";
     "You may only use the internet via the tool `search(query)` IF:";
     "1. The user asks for additional info about a known tool in the dataset";
     "2. The dataset does not already contain the answer";
     "3. The entity is clearly found in NAME, LINK, or PARENT_ORGANIZATION";
     "";
     "Never search the internet for topics unrelated to the dataset.";
     "";
     "## OUT OF SCOPE RULE";
     "If the user asks something not related to this dataset, say:";
     dq +:+ "Sorry, I’m only able to help with questions related to the dashboard data." +:+ dq;
     ""].

Definition userPrompt (rows : list row) (message : string) : string :=
  let rowDump :=
    join nl (imap (fun i r => "Row " +:+ pretty (S i) +:+ ": " +:+ JSON_stringify (row_object r))
                  rows) in
  join nl
    [""; "The dataset includes " +:+ pretty (length rows) +:+ " rows and 24 columns.";
     "";
     "Here is the full dataset:";
     rowDump;
     "";
     "User Question:";
     message;
     ""].

Definition chat_request (rows : list row) (message : string) : completion_request :=
  {| model := "gpt-4o";
     stream := true;
     temperature := "0.3";
     tools := search_tool;
     messages := [ {| role := system; content := Some (VStr systemPrompt) |};
                   {| role := user; content := Some (VStr (userPrompt rows message)) |} ] |}.

(** [app.post("/chat", ...)]; past the first test [message] is a string,
    which is its own conversion. *)
Definition post_chat (w : World) (body : chat_body) : M unit :=
  let message := message body in
  if negb (truthy message) || negb (is_string message) then
    res_status_json 400 (error_object "Missing or invalid 'message'.")
  else
    try_catch
      (let* rows := get_dataset in
       let* text := template message in
       event_stream_headers ;;
       let* stream := call_create w (chat_request rows text) in
       for_await stream
         (fun chunk _ =>
            let token := or_else (delta_content chunk) "" in
            res_write token)
         tt ;;
       res_end None)
      (fun err =>
         console "error" [LStr "❌ Chat stream error:"; LErr err] ;;
         res_status_json 500 (error_object "Streaming chat failed.")).

(** [app.post("/auth-token", ...)]; the second half of the file repeats
    this handler and the next one unchanged. *)
Definition post_auth_token (w : World) (e : env) : M unit :=
  let tenantId := TENANT_ID e in
  let clientId := CLIENT_ID e in
  let clientSecret := CLIENT_SECRET e in
  try_catch
    (let* response :=
       call_fetch w (auth_request (show tenantId) (show clientId) (show clientSecret)) in
     (if negb (ok response) then throw (Error "Auth token request failed") else ret tt) ;;
     let* data := response_json w response in
     res_json data)
    (fun error =>
       console "error" [LStr "Auth token error:"; LErr error] ;;
       res_status_json 500 (error_object "Failed to fetch auth token")).

(** [app.post("/embed-token", ...)]; [body] is [req.body].  The token is
    converted inside the [try]. *)
Definition post_embed_token (w : World) (body : value) : M unit :=
  let groupId := "4c6a6199-2d9c-423c-a366-7e72edc983ad" in
  let reportId := "9f92cc54-8318-44c4-a671-a020ea14ef56" in
  let* authToken := lift (get_prop (Some body) "authToken") in
  try_catch
    (let* bearer := template authToken in
     let* response := call_fetch w (embed_request groupId reportId bearer) in
     (if negb (ok response) then throw (Error "Failed to get embed token") else ret tt) ;;
     let* data := response_json w response in
     res_json data)
    (fun error =>
       console "error" [LStr "Embed token error:"; LErr error] ;;
       res_status_json 500 (error_object "Failed to get embed token")).

End Express.

(** ** server.mjs, second half: sessions and the search tool *)
Module Session.

Definition complete (r : row) : bool :=
  nonempty (assoc "INFRA_ID" r) && nonempty (assoc "NAME" r)
  && nonempty (assoc "AI_TYPE" r) && nonempty (assoc "TASKS" r).

(** One line of [fullDatasetDump]. *)
Definition dump_line (r : row) : string :=
  "INFRA_ID: " +:+ show (assoc "INFRA_ID" r) +:+ " | NAME: " +:+ show (assoc "NAME" r)
  +:+ " | AI_TYPE: " +:+ show (assoc "AI_TYPE" r) +:+ " | TASKS: " +:+ show (assoc "TASKS" r)
  +:+ " | FOUNDATIONAL_MODEL: " +:+ show (assoc "FOUNDATIONAL_MODEL" r)
  +:+ " | YEAR_LAUNCHED: " +:+ show (assoc "YEAR_LAUNCHED" r).

Definition loadDataset (file : exn + list row) : M unit :=
  try_catch
    (let* parsed := lift file in
     let rows := List.filter complete parsed in
     set_dataset rows ;;
     console "log" [LStr ("✅ Loaded " +:+ pretty (length rows) +:+ " valid rows")] ;;
     set_fullDatasetDump (join nl (List.map dump_line rows)) ;;
     console "log" [LStr "✅ Pre-processed full dataset dump"])
    (fun err => console "error" [LStr "❌ Failed to load CSV:"; LErr err]).

Definition systemPrompt : string :=
  join nl
    [""; "You are ME-AI — a friendly yet precise assistant for the ME-NEXUS dashboard.";
     "";
     "### PERSONALITY";
     "- Greet the user naturally (e.g., " +:+ dq +:+ "Hey there!" +:+ dq +:+ ", " +:+ dq
       +:+ "Welcome back!" +:+ dq +:+ ", " +:+ dq +:+ "Hope your day’s going great!" +:+ dq +:+ ").";
     "- Keep a warm, conversational tone but remain professional and helpful.";
     "";
     "### KNOWLEDGE";
     "You have access to a dataset of AI infrastructure tools (each with NAME, INFRA_ID, TASKS, FOUNDATIONAL_MODEL, etc.).";
     "";
     "### INTERNET ACCESS";
     "You may use the " +:+ dq +:+ "search(query)" +:+ dq +:+ " tool ONLY to:";
     "1. Find **recent updates, news, or announcements** about tools already in the dataset.";
     "2. Get more details about a known tool if the dataset lacks that info.";
     "";
     "### RULES";
     "- If the user asks about a tool, find it by NAME or INFRA_ID and answer directly from the dataset.";
     "- If the question is unrelated to AI tools or the dashboard, respond:";
     "  " +:+ dq +:+ "Sorry, I can only help with questions about AI tools and dashboard data." +:+ dq;
     "- If the data doesn’t exist in the dataset, use the web search.";
     "- Always answer concisely and politely.";
     ""].

Definition system_turn : turn := {| role := system; content := Some (VStr systemPrompt) |}.

(** The turn that carries the dataset and the text of the new message. *)
Definition prompt_turn (dump : string) (message : string) : turn :=
  {| role := user;
     content := Some (VStr ("Here is the full dataset:" +:+ nl +:+ dump +:+ nl +:+ nl
                            +:+ "User: " +:+ message)) |}.

Definition chat_request (dump : string) (history : list turn) (message : string)
  : completion_request :=
  {| model := "gpt-4o-mini";
     stream := true;
     temperature := "0.25";
     tools := search_tool;
     messages := [system_turn] ++ history ++ [prompt_turn dump message] |}.

(** The three-line digest of the search results. *)
Definition summary (results : list search_result) : string :=
  join nl
    (List.map
       (fun r => "• [" +:+ title r +:+ "](" +:+ link r +:+ ") — "
                 +:+ or_else (option_map (slice0 200) (description r)) "")
       (firstn 3 results)).

Definition followUp_request (q : string) (results : list search_result)
  : completion_request :=
  {| model := "gpt-4o-mini";
     stream := false;
     temperature := "0.3";
     tools := [];
     messages :=
       [system_turn;
        {| role := user;
           content := Some (VStr ("Here are web search results for " +:+ dq +:+ q
                                  +:+ dq +:+ ":" +:+ nl +:+ summary results +:+ nl +:+ nl
                                  +:+ "Summarize in two concise sentences.")) |}] |}.

(** [followUp.choices[0].message.content] *)
Definition first_content (c : completion) : exn + option string :=
  match c with
  | Completed (first :: _) => inr first
  | Completed [] => inl TypeError
  | Streamed _ _ => inl TypeError
  end.

(** [x] as the right operand of a string [+]: [null] reads ["null"]. *)
Definition or_null (x : option string) : string :=
  match x with
  | Some s => s
  | None => "null"
  end.

Definition apology : string :=
  nl +:+ nl +:+ "(Sorry, I couldn’t fetch live updates right now.)" +:+ nl.

(** The body of [if (q) { ... }].  The query is whatever the arguments
    hold under [query]; the log line converts it, outside the [try], so a
    query that does not convert ends the loop and not only the search.  The
    search is given the query as it is, the follow-up request its text. *)
Definition web_search (w : World) (q : option value) (buffer : string) : M string :=
  let* shown := template q in
  console "log" [LStr ("🌐 ME-AI websearch: " +:+ shown)] ;;
  try_catch
    (let* results := call_search w q in
     let* followUp := call_create w (followUp_request shown results) in
     let* final := lift (first_content followUp) in
     res_write (nl +:+ nl +:+ or_null final) ;;
     ret (buffer +:+ nl +:+ nl +:+ or_null final))
    (fun err =>
       console "error" [LStr "Web search failed:"; LErr err] ;;
       res_write apology ;;
       ret buffer).

(** [toolCall && toolCall.function?.name === "search"] *)
Definition names_search (toolCall : option (option fn_call)) : option fn_call :=
  match toolCall with
  | Some (Some f) =>
      match name f with
      | Some n => if String.eqb n "search" then Some f else None
      | None => None
      end
  | _ => None
  end.

(** The [try] that reads the query; [None] is its [catch], which ends the
    iteration with [continue]. *)
Definition read_query (w : World) (f : fn_call) : M (option (option value)) :=
  try_catch
    (let* args := lift (parse w (or_else (arguments f) "{}")) in
     let* q := lift (get_prop (Some args) "query") in
     ret (Some q))
    (fun err =>
       console "warn" [LStr "⚠️ Skipping incomplete tool arguments:";
                       LStr (show (arguments f))] ;;
       ret None).

(** One iteration of the loop over the stream; [buffer] is the reply
    accumulated so far. *)
Definition on_chunk (w : World) (c : chunk) (buffer : string) : M string :=
  let toolCall := delta_tool_call c in
  let token := or_else (delta_content c) "" in
  let* buffer :=
    (if negb (String.eqb token "")
     then res_write token ;; ret (buffer +:+ token)
     else ret buffer) in
  match names_search toolCall with
  | Some f =>
      let* parsed := read_query w f in
      match parsed with
      | None => ret buffer
      | Some q => if truthy q then web_search w q buffer else ret buffer
      end
  | None => ret buffer
  end.

(** [app.post("/chat", ...)], for a request that no other request
    overlaps.  The message can be any truthy value and is converted where
    the request is built, inside the [try].  [history] is the array held by
    the map when there is one; the two [push]es and [set] run with no
    [await] between them, so pushing in place and storing back is one update
    of the map.  The handler awaits the provider between [sessions.get] and
    [sessions.set]: what requests that overlap do to each other is not
    described by running this program from a state to a state. *)
Definition post_chat (w : World) (body : chat_body) : M unit :=
  let message := message body in
  let sessionId := sessionId body in
  if negb (truthy message) then
    res_status_json 400 (error_object "Missing 'message'.")
  else
    let* stored := sessions_get sessionId in
    let history := default [] stored in
    event_stream_headers ;;
    try_catch
      (let* dump := get_fullDatasetDump in
       let* text := template message in
       let* completion := call_create w (chat_request dump history text) in
       let* buffer := for_await completion (on_chunk w) "" in
       sessions_set sessionId
         (history ++ [ {| role := user; content := message |};
                       {| role := assistant; content := Some (VStr buffer) |} ]) ;;
       res_end None)
      (fun err =>
         console "error" [LStr "❌ Chat stream error:"; LErr err] ;;
         let* sent := headersSent in
         if negb sent
         then res_status_json 500 (error_object "Streaming chat failed.")
         else res_end (Some (nl +:+ nl +:+ "[Error: Chat stream failed]"))).

(** The two turns a completed request pushes on the history. *)
Definition stored_turns (body : chat_body) (buffer : string) : list turn :=
  [ {| role := user; content := message body |};
    {| role := assistant; content := Some (VStr buffer) |} ].

(** The history a request starts from, the streaming request it sends for
    a message whose text is [shown], and what the provider answers to the
    request: [None] when it rejects the call, and when the message does not
    convert, so that no call is made.  The request goes out after the three
    headers are set, at time 3. *)
Definition history_of (s : state) (body : chat_body) : list turn :=
  default [] (sessions s !! sessionId body).

Definition request_of (s : state) (body : chat_body) (shown : string) : completion_request :=
  chat_request (fullDatasetDump s) (history_of s body) shown.

Definition provider_answer (w : World) (s : state) (body : chat_body) : option completion :=
  match to_string (message body) with
  | inr shown => completions_create w 3%nat (request_of s body shown)
  | inl _ => None
  end.

End Session.

(** ** What an observer sees of a trace *)

(** The fragments written with [res.write], in order. *)
Definition written (t : list effect) : list string :=
  flat_map (fun e => match e with Write fragment => [fragment] | _ => [] end) t.

Definition concat_str (xs : list string) : string := fold_right String.append "" xs.

(** The outbound HTTP calls made through [fetch]. *)
Definition fetches (t : list effect) : list request :=
  flat_map (fun e => match e with Fetch rq => [rq] | _ => [] end) t.

(** The requests sent to the completion provider. *)
Definition completions (t : list effect) : list completion_request :=
  flat_map (fun e => match e with Completion rq => [rq] | _ => [] end) t.

(** The web searches run. *)
Definition searches (t : list effect) : list (option value) :=
  flat_map (fun e => match e with Search q => [q] | _ => [] end) t.

(** The JSON payloads sent with [res.json], each with the status code in
    force when it was sent (200 unless [res.status] was called). *)
Fixpoint json_replies_from (code : Z) (t : list effect) : list (Z * value) :=
  match t with
  | [] => []
  | Status c :: rest => json_replies_from c rest
  | Json body :: rest => (code, body) :: json_replies_from code rest
  | _ :: rest => json_replies_from code rest
  end.

Definition json_replies (t : list effect) : list (Z * value) := json_replies_from 200 t.

(** The inline markers that end a stream: [res.end(marker)]. *)
Definition end_markers (t : list effect) : list string :=
  flat_map (fun e => match e with End (Some fragment) => [fragment] | _ => [] end) t.

(** The log line of the [catch] around the web search. *)
Definition is_search_failure (e : effect) : bool :=
  match e with
  | Console level (LStr s :: _) => String.eqb level "error" && String.eqb s "Web search failed:"
  | _ => false
  end.

(** What an iteration of the loop over the stream can do: write a fragment,
    log, search, ask for a completion. *)
Definition loop_effect (e : effect) : bool :=
  match e with
  | Write _ | Console _ _ | Search _ | Completion _ => true
  | _ => false
  end.

(** The effects of [event_stream_headers] on a fresh response. *)
Definition stream_headers : list effect :=
  [SetHeader "Content-Type" "text/event-stream";
   SetHeader "Cache-Control" "no-cache";
   SetHeader "Connection" "keep-alive"].

(** What relaying the text of a chunk adds to the trace. *)
Definition relayed (c : chunk) : list effect :=
  let token := or_else (delta_content c) "" in
  if String.eqb token "" then [] else [Write token].

(** The tokens of a stream: the non-empty [delta.content] of its chunks. *)
Definition tokens (chunks : list chunk) : list string :=
  flat_map (fun c => let token := or_else (delta_content c) "" in
                     if String.eqb token "" then [] else [token]) chunks.

(** 4xx *)
Definition client_error (code : Z) : Prop := 400 <= code < 500.
(** 5xx *)
Definition server_error (code : Z) : Prop := 500 <= code < 600.

(** The four required fields, as the data model words them: each is there
    and is not the empty text. *)
Definition required_fields : list string := ["INFRA_ID"; "NAME"; "AI_TYPE"; "TASKS"].

Definition has_all_required (r : row) : Prop :=
  Forall (fun k => exists v, assoc k r = Some v /\ v <> "") required_fields.

(** A configuration that lacks a credential: [!TENANT_ID || !CLIENT_ID ||
    !CLIENT_SECRET]. *)
Definition missing_credentials (e : env) : Prop :=
  nonempty (TENANT_ID e) = false \/ nonempty (CLIENT_ID e) = false
  \/ nonempty (CLIENT_SECRET e) = false.

(** The streaming call to the provider fails: it is rejected or never
    made, it breaks while it is read, or what it resolves to is not a
    stream. *)
Definition provider_fails (answer : option completion) : Prop :=
  match answer with
  | Some (Streamed _ Done) => False
  | _ => True
  end.

(** A request is turned down with a 4xx payload and nothing is fetched. *)
Definition rejected_without_fetch (t : list effect) : Prop :=
  fetches t = [] /\ exists code body, json_replies t = [(code, body)] /\ client_error code.

(** A request is turned down with a 4xx payload and the completion provider
    is not called. *)
Definition rejected_without_completion (t : list effect) : Prop :=
  completions t = [] /\ exists code body, json_replies t = [(code, body)] /\ client_error code.

(** ** Concrete worlds and requests on which the handlers are run *)
Module Scenario.

Definition token_body : value := VObj [("authToken", VStr "abc")].
Definition query_args : value := VObj [("query", VStr "Runway")].

(** An object that cannot be converted to text, and a token and a query
    that are such an object. *)
Definition unprintable : value := VObj [("toString", VNum "1")].
Definition odd_token_body : value := VObj [("authToken", unprintable)].
Definition odd_query_args : value := VObj [("query", unprintable)].

(** The documents the scenario worlds can parse. *)
Definition parse_table (s : string) : option value :=
  if String.eqb s "{}" then Some (VObj [])
  else if String.eqb s (JSON_stringify token_body) then Some token_body
  else if String.eqb s (JSON_stringify query_args) then Some query_args
  else None.

(** The same, and the two documents with an object that does not convert. *)
Definition odd_parse_table (s : string) : option value :=
  if String.eqb s (JSON_stringify odd_token_body) then Some odd_token_body
  else if String.eqb s (JSON_stringify odd_query_args) then Some odd_query_args
  else parse_table s.

(** Every outbound call is rejected. *)
Definition offline : World :=
  {| JSON_parse := parse_table;
     fetch := fun _ _ => None;
     completions_create := fun _ _ => None;
     google_search := fun _ _ => None |}.

(** The upstream accepts whatever it is sent and answers [{}]. *)
Definition accepting : World :=
  {| JSON_parse := parse_table;
     fetch := fun _ _ => Some {| ok := true; status := 200; text := "{}" |};
     completions_create := fun _ _ => None;
     google_search := fun _ _ => None |}.

(** The upstream answers 401 with a body of its own. *)
Definition refusing : World :=
  {| JSON_parse := parse_table;
     fetch := fun _ _ => Some {| ok := false; status := 401;
                                 text := "AADSTS700016: application not found" |};
     completions_create := fun _ _ => None;
     google_search := fun _ _ => None |}.

Definition post (route : string) (body : option string) : Lambda.event :=
  {| Lambda.ev_method := Some "POST"; Lambda.httpMethod := None;
     Lambda.rawPath := Some route; Lambda.path := None; Lambda.ev_body := body |}.

Definition text_chunk (s : string) : chunk :=
  {| delta_content := Some s; delta_tool_call := None |}.

(** A tool call for [search] with the given argument text. *)
Definition search_chunk (args : string) : chunk :=
  {| delta_content := None;
     delta_tool_call := Some (Some {| name := Some "search"; arguments := Some args |}) |}.

Definition results : list search_result :=
  [ {| title := "Runway"; link := "https://runwayml.com"; description := Some "Gen-3" |};
    {| title := "News"; link := "https://example.org/a"; description := None |};
    {| title := "Blog"; link := "https://example.org/b"; description := Some "" |};
    {| title := "Forum"; link := "https://example.org/c"; description := Some "thread" |} ].

(** The provider streams [chunks]; searches and summaries succeed. *)
Definition chatting (chunks : list chunk) (ending : stream_end) : World :=
  {| JSON_parse := parse_table;
     fetch := fun _ _ => None;
     completions_create :=
       fun _ rq => if stream rq then Some (Streamed chunks ending)
                   else Some (Completed [Some "Runway released Gen-3."]);
     google_search := fun _ _ => Some results |}.

(** The same worlds, reading the odd documents too. *)
Definition accepting_oddly : World :=
  {| JSON_parse := odd_parse_table;
     fetch := fetch accepting;
     completions_create := completions_create accepting;
     google_search := google_search accepting |}.

Definition chatting_oddly (chunks : list chunk) (ending : stream_end) : World :=
  {| JSON_parse := odd_parse_table;
     fetch := fetch (chatting chunks ending);
     completions_create := completions_create (chatting chunks ending);
     google_search := google_search (chatting chunks ending) |}.

(** The provider streams [chunks]; the search service is down. *)
Definition search_down (chunks : list chunk) : World :=
  {| JSON_parse := parse_table;
     fetch := fun _ _ => None;
     completions_create :=
       fun _ rq => if stream rq then Some (Streamed chunks Done) else None;
     google_search := fun _ _ => None |}.

Definition ask (text : string) (id : option string) : chat_body :=
  {| message := Some (VStr text); sessionId := id |}.

Definition no_tenant : env :=
  {| TENANT_ID := None; CLIENT_ID := Some "client"; CLIENT_SECRET := Some "secret" |}.


End Scenario.

(** ** More text helpers *)

(** [s.startsWith(p)] *)
Fixpoint starts_with (p s : string) : bool :=
  match p, s with
  | EmptyString, _ => true
  | String a p', String b s' => Ascii.eqb a b && starts_with p' s'
  | String _ _, EmptyString => false
  end.

(** [s.includes(p)] *)
Fixpoint includes (s p : string) : bool :=
  starts_with p s
  || match s with
     | EmptyString => false
     | String _ s' => includes s' p
     end.

(** Whether the character occurs in the string. *)
Fixpoint has_char (c : ascii) (s : string) : bool :=
  match s with
  | EmptyString => false
  | String a rest => Ascii.eqb a c || has_char c rest
  end.

(** ** The keyword-filter variant of the server *)
Module Keyword.

Section WithRuntime.

(** [String.prototype.toLowerCase] of the runtime. *)
Variable toLowerCase : string -> string.

Definition allowedKeywords : list string :=
  ["ai"; "tool"; "infrastructure"; "dataset"; "infra_id"; "task"; "model";
   "training"; "inference"; "name"; "organization"; "framework"; "parent";
   "foundational_model"; "year_launched"; "funding"].

(** [allowedKeywords.some(k => lowerMsg.includes(k))] *)
Definition isRelevant (lowerMsg : string) : bool :=
  existsb (fun k => includes lowerMsg k) allowedKeywords.

(** [Object.values(r).join(" ")]: the values of the own properties, in the
    order of enumeration, which is the order a [row] is held in. *)
Definition row_text (r : row) : string := join " " (List.map snd r).

(** The filter of [relevantRows]. *)
Definition mentions (lowerMsg : string) (r : row) : bool :=
  includes (toLowerCase (row_text r)) lowerMsg.

Definition relevantRows (rows : list row) (lowerMsg : string) : list row :=
  firstn 10 (List.filter (mentions lowerMsg) rows).

Definition off_topic : value :=
  VObj [("reply",
         VStr "Sorry, I’m only able to help with questions related to the dashboard data.")].

Definition nothing_found : value :=
  VObj [("reply", VStr "Sorry, I couldn’t find anything related to that in the dataset.")].

Definition systemPrompt : string :=
  join nl
    [""; "You are ME-AI, a precise assistant for the provided dataset of AI infrastructure tools.";
     "### YOUR JOB:";
     "- Use the dataset rows provided below.";
     "- If the user asks about a specific tool (by NAME or INFRA_ID), find it and answer based on the dataset values (e.g., FOUNDATIONAL_MODEL, TASKS, YEAR_LAUNCHED).";
     "- Do **not** describe the dataset structure or list columns generically.";
     "- If the dataset does not contain the requested information, say: " +:+ dq
       +:+ "I couldn’t find that information in the dataset." +:+ dq;
     "- If the user asks something unrelated to the dataset, say: " +:+ dq
       +:+ "Sorry, I’m only able to help with questions related to the dashboard data." +:+ dq;
     "### STYLE:";
     "- Answer concisely with the relevant values.";
     "- Reference column names exactly.";
     ""].

Definition chat_request (rows : list row) (message : string) : completion_request :=
  {| model := "gpt-4o-mini";
     stream := true;
     temperature := "0.2";
     tools := [];
     messages :=
       [ {| role := system; content := Some (VStr systemPrompt) |};
         {| role := user;
            content := Some (VStr ("Relevant rows:" +:+ nl
                                   +:+ join nl (List.map Session.dump_line rows) +:+ nl +:+ nl
                                   +:+ "User question: " +:+ message)) |} ] |}.

(** [app.post("/chat", ...)]; past the first test [message] is a string,
    which is its own conversion.  Nothing here is inside a [try]. *)
Definition post_chat (w : World) (body : chat_body) : M unit :=
  let message := message body in
  if negb (truthy message) || negb (is_string message) then
    res_status_json 400 (error_object "Missing or invalid 'message'.")
  else
    let* text := template message in
    let lowerMsg := toLowerCase text in
    if negb (isRelevant lowerMsg) then res_json off_topic
    else
      let* rows := get_dataset in
      let relevant := relevantRows rows lowerMsg in
      if Nat.eqb (length relevant) 0 then res_json nothing_found
      else
        event_stream_headers ;;
        let* stream := call_create w (chat_request relevant text) in
        for_await stream
          (fun chunk _ =>
             let token := or_else (delta_content chunk) "" in
             res_write token)
          tt ;;
        res_end None.

End WithRuntime.

End Keyword.

(** ** More observations *)

(** The calls that end a response: [res.json] and [res.end]. *)
Definition terminal (e : effect) : bool :=
  match e with
  | Json _ | End _ => true
  | _ => false
  end.

(** What [res.write(token)] of a relaying loop adds for a chunk. *)
Definition echo (c : chunk) : effect := Write (or_else (delta_content c) "").

(** Whether a chunk carries a tool call that names [search]. *)
Definition asks_search (c : chunk) : bool :=
  match Session.names_search (delta_tool_call c) with
  | Some _ => true
  | None => false
  end.


(** The exception is that of converting the truthy query of some tool
    call. *)
Definition query_throws (w : World) (e : exn) : Prop :=
  exists doc args q,
    JSON_parse w doc = Some args /\ get_prop (Some args) "query" = inr q
    /\ truthy q = true /\ to_string q = inl e.

(** Every query a tool call can carry converts to text. *)
Definition queries_convert (w : World) : Prop :=
  forall doc args q,
    JSON_parse w doc = Some args -> get_prop (Some args) "query" = inr q ->
    exists shown, to_string q = inr shown.


(** ** Requests that overlap

    The handler is an [async] function: it runs without interruption from
    one [await] to the next, and other requests run in between.  It touches
    the session map in two places, each between two awaits: where it
    arrives ([sessions.get(sessionId) || []]) and where its stream has ended
    (the two [history.push] and [sessions.set]).  [history] is an array, the
    very array of the map when it came from the map.  Here arrays live in a
    heap and the map holds their addresses, so that two requests can hold
    the same array, or two arrays for one session. *)
Module Overlap.

Record store : Type := {
  arrays : list (list turn);           (* the heap: address [n] is the n-th array *)
  table : gmap (option string) nat;    (* sessions *)
}.



(** What [sessions.get(id) || []] reads. *)
Definition history_of (st : store) (id : option string) : list turn :=
  match table st !! id with
  | Some history => default [] (arrays st !! history)
  | None => []
  end.






End Overlap.

(** The response was closed with a plain [res.end()]. *)
Definition ended_plainly (t : list effect) : Prop := In (End None) t.

(** The dump is the rendering of the dataset. *)
Definition dump_in_step (s : state) : Prop :=
  fullDatasetDump s = join nl (List.map Session.dump_line (dataset s)).

(** ** More worlds and inputs *)
Module Demo.

(** Lower case for the letters A to Z; other characters are kept. *)
Definition lower_char (c : ascii) : ascii :=
  let n := nat_of_ascii c in
  if Nat.leb 65 n && Nat.leb n 90 then ascii_of_nat (n + 32) else c.

Fixpoint lower (s : string) : string :=
  match s with
  | EmptyString => ""
  | String c rest => String (lower_char c) (lower rest)
  end.

Definition runway : row :=
  [("INFRA_ID", "17"); ("NAME", "Runway"); ("AI_TYPE", "Generative AI"); ("TASKS", "video");
   ("FOUNDATIONAL_MODEL", "Gen-3")].

(** A file whose header has a column named [7], which the record lists
    first. *)
Definition numbered : row :=
  csv_record ["INFRA_ID"; "NAME"; "7"; "AI_TYPE"; "TASKS"]
             ["19"; "zz"; "ai"; "Generative AI"; "video"].

Definition nameless : row :=
  [("INFRA_ID", "18"); ("NAME", ""); ("AI_TYPE", "Generative"); ("TASKS", "audio")].

Definition loaded : state :=
  {| dataset := [runway]; fullDatasetDump := Session.dump_line runway;
     sessions := ∅; trace := [] |}.

(** Every streaming request is answered with the same two tokens. *)
Definition steady : World :=
  {| JSON_parse := Scenario.parse_table;
     fetch := fun _ _ => Some {| ok := true; status := 200;
                                 text := JSON_stringify Scenario.token_body |};
     completions_create :=
       fun _ _ => Some (Streamed [Scenario.text_chunk "Hel"; Scenario.text_chunk "lo"] Done);
     google_search := fun _ _ => None |}.

Definition full_env : env :=
  {| TENANT_ID := Some "tenant"; CLIENT_ID := Some "client"; CLIENT_SECRET := Some "secret" |}.

Definition get (route : string) : Lambda.event :=
  {| Lambda.ev_method := None; Lambda.httpMethod := Some "GET";
     Lambda.rawPath := None; Lambda.path := Some route; Lambda.ev_body := None |}.

Definition options (route : string) : Lambda.event :=
  {| Lambda.ev_method := Some "OPTIONS"; Lambda.httpMethod := None;
     Lambda.rawPath := Some route; Lambda.path := None; Lambda.ev_body := Some "not json" |}.

End Demo.

(** ** Tactics that run the monad *)

Ltac unfold_monad :=
  cbv beta iota zeta delta
    [run bind ret throw try_catch lift template console call_fetch call_create call_search
     response_json res_setHeader res_status_json res_json res_write res_end headersSent
     now emit parse event_stream_headers sessions_get sessions_set get_dataset
     get_fullDatasetDump set_dataset set_fullDatasetDump with_trace with_sessions
     trace sessions dataset fullDatasetDump fst snd] in *.

(** Case analysis on the innermost scrutinee of the goal. *)
Ltac case_matches :=
  repeat match goal with
         | |- context [match ?x with _ => _ end] =>
             lazymatch x with
             | context [match _ with _ => _ end] => fail
             | _ => destruct x eqn:?; simpl
             end
         end.

Ltac unfold_handler :=
  unfold Session.post_chat, Session.provider_answer, Session.request_of,
    Session.history_of, for_await in *;
  unfold_monad; simpl in *.


(** * Properties *)

(** ** Sanity checks of the embedding of JavaScript *)

Example stringify_error :
  JSON_stringify (error_object "Not found")
  = "{" +:+ dq +:+ "error" +:+ dq +:+ ":" +:+ dq +:+ "Not found" +:+ dq +:+ "}".
Proof. reflexivity. Qed.

Example json_result_example :
  Lambda.json_result 404 (error_object "Not found")
  = {| Lambda.statusCode := 404;
       Lambda.out_headers :=
         [("Access-Control-Allow-Origin", "*");
          ("Access-Control-Allow-Headers", "Content-Type");
          ("Access-Control-Allow-Methods", "OPTIONS,POST");
          ("Content-Type", "application/json")];
       Lambda.out_body :=
         "{" +:+ dq +:+ "error" +:+ dq +:+ ":" +:+ dq +:+ "Not found" +:+ dq +:+ "}" |}.
Proof. reflexivity. Qed.

Example to_string_examples :
  to_string None = inr "undefined" /\
  to_string (Some (VNum "-12")) = inr "-12" /\
  to_string (Some (VNum "1e+21")) = inr "1e+21" /\
  to_string (Some (VArr [VNum "1"; VNull; VStr "a"])) = inr "1,,a" /\
  to_string (Some (VObj [("query", VStr "a")])) = inr "[object Object]".
Proof. vm_compute. auto. Qed.

(** An own [toString] that cannot be called makes the conversion throw, at
    any depth of an array. *)
Example to_string_throws :
  to_string (Some (VObj [("toString", VNum "1")])) = inl TypeError /\
  to_string (Some (VArr [VStr "a"; VArr [VObj [("toString", VNull)]]])) = inl TypeError.
Proof. vm_compute. auto. Qed.

(** [slice] counts code units: a bullet is three bytes and one unit, an
    emoji four bytes and two units, and a cut through it keeps the high
    surrogate, which [JSON.stringify] would print escaped. *)
Example slice0_examples :
  slice0 2 "•—x" = "•—" /\
  slice0 3 "a😀b" = "a😀" /\
  slice0 4 "a😀b" = "a😀b" /\
  slice0 0 "abc" = "" /\
  JSON_stringify (VStr (slice0 2 "a😀b")) = dq +:+ "a" +:+ backslash +:+ "ud83d" +:+ dq.
Proof. vm_compute. auto. Qed.

(** A column whose name is an array index is enumerated first, whatever its
    place in the header; assigning a name twice keeps its first place. *)
Example csv_record_examples :
  csv_record ["NAME"; "7"; "TASKS"; "3"] ["zz"; "ai"; "video"; "x"]
  = [("3", "x"); ("7", "ai"); ("NAME", "zz"); ("TASKS", "video")] /\
  csv_record ["NAME"; "07"; "NAME"] ["a"; "b"; "c"] = [("NAME", "c"); ("07", "b")] /\
  Express.row_object (csv_record ["NAME"; "7"] ["zz"; "ai"])
  = VObj [("7", VStr "ai"); ("NAME", VStr "zz")].
Proof. vm_compute. auto. Qed.

Example normalizePath_examples :
  Lambda.normalizePath "/embed-token/" = "/embed-token" /\
  Lambda.normalizePath "/embed-token?x=1" = "/embed-token" /\
  Lambda.normalizePath "/" = "/" /\
  Lambda.normalizePath "/auth-token/?a=/" = "/auth-token".
Proof. repeat split; reflexivity. Qed.

(** ** The dataset loader *)

Lemma nonempty_spec (x : option string) :
  nonempty x = true <-> exists v, x = Some v /\ v <> "".
Proof.
  destruct x as [v|]; simpl.
  - rewrite negb_true_iff. split.
    + intros H. exists v. split; [reflexivity|].
      intros ->. discriminate H.
    + intros (v' & [= <-] & Hne). now apply String.eqb_neq.
  - split; [discriminate|]. intros (v & H & _). discriminate H.
Qed.

Lemma complete_spec (r : row) : Express.complete r = true <-> has_all_required r.
Proof.
  unfold Express.complete, has_all_required, required_fields.
  rewrite !andb_true_iff, !nonempty_spec, !Forall_cons, Forall_nil. tauto.
Qed.

Lemma session_complete_eq (r : row) : Session.complete r = Express.complete r.
Proof. reflexivity. Qed.

Lemma filter_partition_length {A : Type} (f : A -> bool) (l : list A) :
  (length (List.filter f l) + length (List.filter (fun x => negb (f x)) l) = length l)%nat.
Proof.
  induction l as [|x l IH]; simpl; [reflexivity|].
  destruct (f x); simpl; lia.
Qed.

Lemma loadDataset_dataset (rows : list row) (s : state) :
  dataset (snd (Express.loadDataset (inr rows) s)) = List.filter Express.complete rows
  /\ dataset (snd (Session.loadDataset (inr rows) s)) = List.filter Express.complete rows.
Proof. split; reflexivity. Qed.

(** C7.  Loading parsed rows keeps exactly the rows whose four required
    fields are all non-empty, in their order: a row is loaded if and only if
    it is an input row with every required field, the rows loaded and the
    rows left out add up to the input, and both copies of the loader (the
    second also renders the dump) agree. *)
Theorem loadDataset_keeps_exactly_complete_rows (rows : list row) (s : state) :
  let loaded := dataset (snd (Express.loadDataset (inr rows) s)) in
  dataset (snd (Session.loadDataset (inr rows) s)) = loaded
  /\ (forall r, In r loaded <-> In r rows /\ has_all_required r)
  /\ sublist loaded rows
  /\ (length loaded
      + length (List.filter (fun r => negb (Express.complete r)) rows) = length rows)%nat
  /\ (forallb Express.complete rows = true <-> loaded = rows).
Proof.
  destruct (loadDataset_dataset rows s) as [He Hs].
  cbv zeta. rewrite He, Hs. clear He Hs.
  split; [reflexivity|]. split; [|split; [|split; [|split]]].
  - intros r. rewrite filter_In, complete_spec. tauto.
  - induction rows as [|r rows IH]; simpl; [constructor|].
    destruct (Express.complete r); [now apply sublist_skip|now apply sublist_cons].
  - apply filter_partition_length.
  - intros H. induction rows as [|r rows IH]; simpl in *; [reflexivity|].
    apply andb_true_iff in H as [H1 H2]. rewrite H1. f_equal. auto.
  - intros H. rewrite forallb_forall. intros r Hr.
    rewrite <- H in Hr. apply filter_In in Hr. tauto.
Qed.

(** ** Running the monad *)

Lemma with_trace_trace (t : list effect) (s : state) : trace (with_trace t s) = t.
Proof. reflexivity. Qed.

Lemma with_trace_twice (t t' : list effect) (s : state) :
  with_trace t (with_trace t' s) = with_trace t s.
Proof. reflexivity. Qed.

(** ** The token endpoints *)

Lemma lambda_request_body (w : World) (ev : Lambda.event) (s : state) :
  exists log, Lambda.request_body w ev s
              = (inr (Lambda.parsed_body w ev), with_trace (trace s ++ log) s)
              /\ fetches log = [].
Proof.
  unfold Lambda.request_body, Lambda.parsed_body.
  destruct (nonempty (Lambda.ev_body ev)).
  - unfold_monad. destruct (JSON_parse w _); simpl.
    + exists []. rewrite app_nil_r. now destruct s.
    + eexists [_]. split; reflexivity.
  - exists []. unfold ret. rewrite app_nil_r. now destruct s.
Qed.

Lemma is_post_exclusive (ev : Lambda.event) :
  Lambda.is_post ev "/embed-token" = true -> Lambda.is_post ev "/auth-token" = false.
Proof.
  unfold Lambda.is_post. intros H. apply andb_true_iff in H as [-> H].
  apply String.eqb_eq in H. rewrite H. reflexivity.
Qed.

Lemma is_post_not_options (ev : Lambda.event) (route : string) :
  Lambda.is_post ev route = true -> String.eqb (Lambda.request_method ev) "OPTIONS" = false.
Proof.
  unfold Lambda.is_post. intros H. apply andb_true_iff in H as [H _].
  apply String.eqb_eq in H. rewrite H. reflexivity.
Qed.

Lemma handleEmbedToken_missing (w : World) (body : value) (tok : option value) (s : state) :
  get_prop (Some body) "authToken" = inr tok ->
  truthy tok = false ->
  Lambda.handleEmbedToken w body s
  = (inr (Lambda.json_result 400 (error_object "Missing 'authToken' in request body")), s).
Proof.
  intros Htok Hfalsy. unfold Lambda.handleEmbedToken, bind, lift.
  rewrite Htok. unfold ret. rewrite Hfalsy. reflexivity.
Qed.

Lemma handler_embed_route (w : World) (e : env) (ev : Lambda.event) (s : state) :
  Lambda.is_post ev "/embed-token" = true ->
  exists log,
    fetches log = [] /\
    Lambda.handler w e ev s
    = try_catch (Lambda.handleEmbedToken w (Lambda.parsed_body w ev))
        (fun err =>
           console "error" [LStr "Unhandled error in handler:"; LErr err] ;;
           ret (Lambda.json_result 500 (error_object "Internal server error")))
        (with_trace (trace s ++ log) s).
Proof.
  intros Hroute.
  destruct (lambda_request_body w ev s) as (log & Hbody & Hlog).
  exists log. split; [assumption|].
  unfold Lambda.handler, try_catch, bind.
  rewrite (is_post_not_options _ _ Hroute), (is_post_exclusive _ Hroute), Hroute, Hbody.
  reflexivity.
Qed.

(** A falsy value is not an object: its conversion does not throw. *)
Lemma falsy_converts (x : option value) :
  truthy x = false -> exists shown, to_string x = inr shown.
Proof.
  destruct x as [[| [|] | n | t | items | fields]|]; simpl; intros H;
    try discriminate H; eexists; reflexivity.
Qed.

(** The Express handler makes its one outbound call whatever the token is,
    as long as the token converts to text. *)
Lemma express_embed_token_always_fetches
    (w : World) (body : value) (tok : option value) (shown : string) (s : state) :
  get_prop (Some body) "authToken" = inr tok ->
  to_string tok = inr shown ->
  fetches (trace (snd (run (Express.post_embed_token w body) s)))
  = [embed_request Lambda.GROUP_ID Lambda.REPORT_ID shown].
Proof.
  intros Htok Hshown. unfold Express.post_embed_token, run, bind, lift. rewrite Htok.
  unfold_monad. rewrite Hshown. simpl.
  destruct (fetch w _ _) as [r|]; simpl; [|reflexivity].
  destruct (ok r); simpl; [|reflexivity].
  destruct (JSON_parse w (text r)); reflexivity.
Qed.

(** C2, as the code has it.  In the Lambda handler, a POST to [/embed-token]
    whose parsed body is not [null] and holds no truthy [authToken] is
    answered with status 400 and the fixed error payload, and no outbound
    call is made.  The Express handler does not look at the token: on the
    same body it makes its call to the BI service, with the header built
    from the text of whatever the token is. *)
Theorem lambda_embed_token_requires_authToken
    (w : World) (e : env) (ev : Lambda.event) (s : state) (tok : option value) :
  Lambda.is_post ev "/embed-token" = true ->
  get_prop (Some (Lambda.parsed_body w ev)) "authToken" = inr tok ->
  truthy tok = false ->
  fst (run (Lambda.handler w e ev) s)
  = inr (Lambda.json_result 400 (error_object "Missing 'authToken' in request body"))
  /\ client_error 400
  /\ fetches (trace (snd (run (Lambda.handler w e ev) s))) = []
  /\ exists shown,
       to_string tok = inr shown
       /\ fetches (trace (snd (run (Express.post_embed_token w (Lambda.parsed_body w ev)) s)))
          = [embed_request Lambda.GROUP_ID Lambda.REPORT_ID shown].
Proof.
  intros Hroute Htok Hfalsy.
  split; [|split; [unfold client_error; lia|split]].
  - unfold run.
    destruct (handler_embed_route w e ev (with_trace [] s) Hroute) as (log & Hlog & ->).
    unfold try_catch. now rewrite (handleEmbedToken_missing _ _ _ _ Htok Hfalsy).
  - unfold run.
    destruct (handler_embed_route w e ev (with_trace [] s) Hroute) as (log & Hlog & ->).
    unfold try_catch. now rewrite (handleEmbedToken_missing _ _ _ _ Htok Hfalsy).
  - destruct (falsy_converts tok Hfalsy) as (shown & Hshown).
    exists shown. split; [exact Hshown|].
    now apply express_embed_token_always_fetches with tok.
Qed.

Lemma handler_auth_route (w : World) (e : env) (ev : Lambda.event) (s : state) :
  Lambda.is_post ev "/auth-token" = true ->
  exists log,
    fetches log = [] /\
    Lambda.handler w e ev s
    = try_catch (Lambda.handleAuthToken w e)
        (fun err =>
           console "error" [LStr "Unhandled error in handler:"; LErr err] ;;
           ret (Lambda.json_result 500 (error_object "Internal server error")))
        (with_trace (trace s ++ log) s).
Proof.
  intros Hroute.
  destruct (lambda_request_body w ev s) as (log & Hbody & Hlog).
  exists log. split; [assumption|].
  unfold Lambda.handler, try_catch, bind.
  rewrite (is_post_not_options _ _ Hroute), Hroute, Hbody. reflexivity.
Qed.




Lemma handleEmbedToken_refused
    (w : World) (body : value) (tok : option value) (shown : string) (resp : response)
    (s : state) :
  get_prop (Some body) "authToken" = inr tok ->
  truthy tok = true ->
  to_string tok = inr shown ->
  fetch w (length (trace s)) (embed_request Lambda.GROUP_ID Lambda.REPORT_ID shown)
  = Some resp ->
  ok resp = false ->
  fst (Lambda.handleEmbedToken w body s)
  = inr (Lambda.json_result 500 (error_object "Failed to get embed token")).
Proof.
  intros Htok Htruthy Hshown Hfetch Hok. destruct s as [ds dump ss tr].
  unfold Lambda.handleEmbedToken, bind, lift.
  rewrite Htok. unfold ret at 1. rewrite Htruthy. simpl.
  unfold_monad. rewrite Hshown. simpl in *. rewrite Hfetch, Hok. reflexivity.
Qed.

Lemma parsed_body_truthy_token_no_log
    (w : World) (ev : Lambda.event) (tok : option value) (s : state) :
  get_prop (Some (Lambda.parsed_body w ev)) "authToken" = inr tok ->
  truthy tok = true ->
  Lambda.request_body w ev s = (inr (Lambda.parsed_body w ev), s).
Proof.
  unfold Lambda.parsed_body, Lambda.request_body. intros Htok Htruthy.
  destruct (nonempty (Lambda.ev_body ev)).
  - unfold_monad. destruct (JSON_parse w _); [reflexivity|].
    simpl in Htok. injection Htok as <-. discriminate Htruthy.
  - simpl in Htok. injection Htok as <-. discriminate Htruthy.
Qed.

(** C9.  When the request carries an [authToken] that converts to text and
    the BI service answers with a non-success status, the client gets
    status 500 and one fixed error object, whatever the upstream status and
    body were.  The Lambda handler returns status 500, the CORS and JSON
    headers, and as body the JSON object whose one member, [error], reads
    [Failed to get embed token]; the Express handler sends that object as
    its single JSON reply, with status 500 and nothing written besides.  The
    upstream text is in neither. *)
Theorem embed_token_upstream_failure_is_generic
    (w : World) (e : env) (ev : Lambda.event) (body : value) (tok : option value)
    (shown : string) (resp : response) (s : state) :
  Lambda.is_post ev "/embed-token" = true ->
  Lambda.parsed_body w ev = body ->
  get_prop (Some body) "authToken" = inr tok ->
  truthy tok = true ->
  to_string tok = inr shown ->
  fetch w 0%nat (embed_request Lambda.GROUP_ID Lambda.REPORT_ID shown) = Some resp ->
  ok resp = false ->
  (exists r,
     fst (run (Lambda.handler w e ev) s) = inr r
     /\ Lambda.statusCode r = 500
     /\ server_error (Lambda.statusCode r)
     /\ Lambda.out_headers r
        = [("Access-Control-Allow-Origin", "*");
           ("Access-Control-Allow-Headers", "Content-Type");
           ("Access-Control-Allow-Methods", "OPTIONS,POST");
           ("Content-Type", "application/json")]
     /\ Lambda.out_body r
        = "{" +:+ dq +:+ "error" +:+ dq +:+ ":" +:+ dq +:+ "Failed to get embed token"
          +:+ dq +:+ "}")
  /\ json_replies (trace (snd (run (Express.post_embed_token w body) s)))
     = [(500, VObj [("error", VStr "Failed to get embed token")])]
  /\ written (trace (snd (run (Express.post_embed_token w body) s))) = [].
Proof.
  intros Hroute Hbody Htok Htruthy Hshown Hfetch Hok. subst body. split.
  - eexists. split.
    + unfold run, Lambda.handler, try_catch, bind.
      rewrite (is_post_not_options _ _ Hroute), (is_post_exclusive _ Hroute), Hroute.
      rewrite (parsed_body_truthy_token_no_log _ _ _ _ Htok Htruthy).
      pose proof (handleEmbedToken_refused w _ tok shown resp (with_trace [] s)
                    Htok Htruthy Hshown Hfetch Hok) as H.
      destruct (Lambda.handleEmbedToken w _ _) as [r s']. simpl in H. subst r. reflexivity.
    + split; [reflexivity|]. split; [unfold server_error; simpl; lia|].
      split; reflexivity.
  - unfold Express.post_embed_token, run, bind, lift. rewrite Htok.
    unfold Lambda.GROUP_ID, Lambda.REPORT_ID in Hfetch.
    unfold_monad. rewrite Hshown. simpl. rewrite Hfetch, Hok. simpl. split; reflexivity.
Qed.

Lemma lambda_embed_token_requires_authToken_witness :
  Lambda.is_post (Scenario.post "/embed-token/" None) "/embed-token" = true
  /\ fst (run (Lambda.handler Scenario.offline Scenario.no_tenant
                 (Scenario.post "/embed-token/" None)) initial)
     = inr (Lambda.json_result 400 (error_object "Missing 'authToken' in request body")).
Proof.
  split; [reflexivity|].
  apply (lambda_embed_token_requires_authToken
           Scenario.offline Scenario.no_tenant (Scenario.post "/embed-token/" None)
           initial None); reflexivity.
Defined.

(** C2 fails on the Express handler: with no [authToken] in the body it
    still calls the BI service (the header reads [Bearer undefined]) and,
    when the service accepts, relays its answer with status 200. *)
Lemma express_embed_token_fetches_without_authToken :
  get_prop (Some (VObj [])) "authToken" = inr None
  /\ fetches (trace (snd (run (Express.post_embed_token Scenario.accepting (VObj [])) initial)))
     = [embed_request Lambda.GROUP_ID Lambda.REPORT_ID "undefined"]
  /\ assoc "Authorization"
       (headers (embed_request Lambda.GROUP_ID Lambda.REPORT_ID "undefined"))
     = Some "Bearer undefined"
  /\ json_replies (trace (snd (run (Express.post_embed_token Scenario.accepting (VObj [])) initial)))
     = [(200, VObj [])]
  /\ ~ rejected_without_fetch
         (trace (snd (run (Express.post_embed_token Scenario.accepting (VObj [])) initial))).
Proof.
  split; [reflexivity|]. split; [reflexivity|]. split; [reflexivity|]. split; [reflexivity|].
  intros [H _]. discriminate H.
Qed.


Lemma embed_token_upstream_failure_is_generic_witness :
  ok {| ok := false; status := 401; text := "AADSTS700016: application not found" |} = false
  /\ (exists r,
        fst (run (Lambda.handler Scenario.refusing Scenario.no_tenant
                    (Scenario.post "/embed-token"
                       (Some (JSON_stringify Scenario.token_body)))) initial) = inr r
        /\ Lambda.statusCode r = 500
        /\ Lambda.out_body r
           = "{" +:+ dq +:+ "error" +:+ dq +:+ ":" +:+ dq +:+ "Failed to get embed token"
             +:+ dq +:+ "}").
Proof.
  split; [reflexivity|].
  destruct (embed_token_upstream_failure_is_generic
              Scenario.refusing Scenario.no_tenant
              (Scenario.post "/embed-token" (Some (JSON_stringify Scenario.token_body)))
              Scenario.token_body (Some (VStr "abc")) "abc"
              {| ok := false; status := 401; text := "AADSTS700016: application not found" |}
              initial eq_refl eq_refl eq_refl eq_refl eq_refl eq_refl eq_refl)
    as [(r & Hr & Hcode & _ & _ & Hbody) _].
  exists r. split; [exact Hr|]. split; [exact Hcode | exact Hbody].
Defined.

(** ** Text and traces *)

Lemma append_nil_r (s : string) : s +:+ "" = s.
Proof.
  induction s as [|a s IH]; [reflexivity|].
  change (String a (s +:+ "") = String a s). now rewrite IH.
Qed.

Lemma append_assoc (a b c : string) : (a +:+ b) +:+ c = a +:+ (b +:+ c).
Proof.
  induction a as [|x a IH]; [reflexivity|].
  change (String x ((a +:+ b) +:+ c) = String x (a +:+ (b +:+ c))). now rewrite IH.
Qed.

Lemma concat_str_app (xs ys : list string) :
  concat_str (xs ++ ys) = concat_str xs +:+ concat_str ys.
Proof.
  induction xs as [|x xs IH]; [reflexivity|].
  simpl. unfold concat_str in *. simpl. now rewrite IH, append_assoc.
Qed.

Lemma written_app (t u : list effect) : written (t ++ u) = written t ++ written u.
Proof. apply flat_map_app. Qed.

Lemma completions_app (t u : list effect) :
  completions (t ++ u) = completions t ++ completions u.
Proof. apply flat_map_app. Qed.

Lemma end_markers_app (t u : list effect) :
  end_markers (t ++ u) = end_markers t ++ end_markers u.
Proof. apply flat_map_app. Qed.

Lemma json_replies_from_app (code : Z) (t u : list effect) :
  forallb loop_effect t = true ->
  json_replies_from code (t ++ u) = json_replies_from code u.
Proof.
  induction t as [|e t IH]; [reflexivity|].
  simpl. intros H. apply andb_true_iff in H as [He Ht].
  destruct e; try discriminate He; auto.
Qed.

Lemma end_markers_loop (t : list effect) :
  forallb loop_effect t = true -> end_markers t = [].
Proof.
  induction t as [|e t IH]; [reflexivity|].
  simpl. intros H. apply andb_true_iff in H as [He Ht].
  destruct e; try discriminate He; auto.
Qed.

(** In the loop, the headers have been sent exactly when something has been
    written. *)
Lemma sends_headers_loop (t : list effect) :
  forallb loop_effect t = true ->
  existsb sends_headers t = negb (match written t with [] => true | _ => false end).
Proof.
  induction t as [|e t IH]; [reflexivity|].
  simpl. intros H. apply andb_true_iff in H as [He Ht].
  destruct e; try discriminate He; simpl; auto.
Qed.

(** ** One iteration of the loop of the session handler *)

Section Loop.

Variable w : World.

#[local] Arguments to_string : simpl never.
#[local] Arguments truthy : simpl never.

(** An iteration writes the chunk's text first and adds nothing but loop
    effects.  When it returns, what it has accumulated is what it has
    written unless a web search failed; when it throws, it is on the
    conversion of a query. *)
Lemma on_chunk_spec (c : chunk) (buffer : string) (s : state) :
  exists r new extra,
    Session.on_chunk w c buffer s = (r, with_trace (trace s ++ new) s)
    /\ forallb loop_effect new = true
    /\ written new = tokens [c] ++ extra
    /\ match r with
       | inr buffer' =>
           existsb is_search_failure new = false ->
           buffer' = buffer +:+ concat_str (written new)
       | inl e => query_throws w e
       end.
Proof.
  destruct s as [ds dump ss tr].
  unfold Session.on_chunk, Session.read_query, Session.web_search, tokens.
  unfold_monad. simpl.
  destruct (String.eqb (or_else (delta_content c) "") "") eqn:Htoken; simpl;
    (destruct (Session.names_search (delta_tool_call c)) as [f|]; simpl;
     [destruct (JSON_parse w (or_else (arguments f) "{}")) as [args|] eqn:Hparse; simpl|]);
    case_matches;
    rewrite <- ?app_assoc; simpl;
    (first [ eexists _, [], _; rewrite app_nil_r; split; [reflexivity|]
           | eexists _, _, _; split; [reflexivity|] ];
     split; [reflexivity|]; split; [reflexivity|]);
    simpl; unfold concat_str; simpl;
    rewrite ?append_nil_r, ?append_assoc; try reflexivity; try discriminate.
  all: try (intros _; rewrite ?app_nil_r; reflexivity).
  all: try (eexists _, _, _; split; [eassumption|]; split; [reflexivity|];
            split; eassumption).
Qed.

Lemma tokens_cons (c : chunk) (rest : list chunk) :
  tokens (c :: rest) = tokens [c] ++ tokens rest.
Proof. unfold tokens. simpl. now rewrite app_nil_r. Qed.

(** The loop writes the tokens in the order of the chunks, and what it
    accumulates is what it writes unless a web search fails.  It throws
    only on the conversion of a query. *)
Lemma for_each_spec (chunks : list chunk) (buffer : string) (s : state) :
  exists r new,
    for_each chunks (Session.on_chunk w) buffer s
    = (r, with_trace (trace s ++ new) s)
    /\ forallb loop_effect new = true
    /\ match r with
       | inr buffer' =>
           sublist (tokens chunks) (written new)
           /\ (existsb is_search_failure new = false ->
               buffer' = buffer +:+ concat_str (written new))
       | inl e => query_throws w e
       end.
Proof.
  revert buffer s. induction chunks as [|c rest IH]; intros buffer s.
  - exists (inr buffer), []. simpl. rewrite app_nil_r. unfold ret.
    repeat split; [now destruct s | constructor | intros _; now rewrite append_nil_r].
  - destruct (on_chunk_spec c buffer s) as (r1 & new1 & extra & Hrun1 & Hloop1 & Hw1 & Hr1).
    destruct r1 as [e|b1].
    + exists (inl e), new1. simpl for_each. unfold bind. rewrite Hrun1.
      split; [reflexivity|]. split; assumption.
    + destruct (IH b1 (with_trace (trace s ++ new1) s)) as (r2 & new2 & Hrun2 & Hloop2 & Hr2).
      exists r2, (new1 ++ new2). simpl for_each. unfold bind. rewrite Hrun1, Hrun2.
      rewrite with_trace_trace, with_trace_twice, app_assoc.
      split; [reflexivity|]. split; [rewrite forallb_app, Hloop1, Hloop2; reflexivity|].
      destruct r2 as [e|b2]; [assumption|]. destruct Hr2 as [Hsub2 Hb2]. split.
      * rewrite tokens_cons, written_app, Hw1.
        apply sublist_app; [apply sublist_inserts_r; reflexivity | assumption].
      * rewrite existsb_app. intros H. apply orb_false_iff in H as [H1 H2].
        rewrite (Hb2 H2), (Hr1 H1), written_app, concat_str_app, append_assoc. reflexivity.
Qed.

(** When every query converts the loop does not throw. *)
Lemma for_each_returns (chunks : list chunk) (buffer : string) (s : state) :
  queries_convert w ->
  exists buffer' new,
    for_each chunks (Session.on_chunk w) buffer s
    = (inr buffer', with_trace (trace s ++ new) s)
    /\ forallb loop_effect new = true
    /\ sublist (tokens chunks) (written new)
    /\ (existsb is_search_failure new = false ->
        buffer' = buffer +:+ concat_str (written new)).
Proof.
  intros Hconvert.
  destruct (for_each_spec chunks buffer s) as ([e|buffer'] & new & Hrun & Hloop & Hr).
  - destruct Hr as (doc & args & q & Hparse & Hquery & _ & Hthrows).
    destruct (Hconvert doc args q Hparse Hquery) as (shown & Hshown). congruence.
  - exists buffer', new. destruct Hr. auto.
Qed.

End Loop.

(** ** The session handler, outcome by outcome *)

Lemma post_chat_rejected (w : World) (body : chat_body) (s : state) :
  truthy (message body) = false ->
  run (Session.post_chat w body) s
  = (inr tt, with_trace [Status 400; Json (error_object "Missing 'message'.")] s).
Proof.
  intros H. destruct s. unfold_handler. rewrite H. reflexivity.
Qed.

(** The message does not convert to text: the request is never built, the
    provider is not called, and the reply is the error payload. *)
Lemma post_chat_unconverted (w : World) (body : chat_body) (s : state) (e : exn) :
  truthy (message body) = true ->
  to_string (message body) = inl e ->
  run (Session.post_chat w body) s
  = (inr tt,
     with_trace (stream_headers
                 ++ [Console "error" [LStr "❌ Chat stream error:"; LErr e];
                     Status 500; Json (error_object "Streaming chat failed.")]) s).
Proof.
  intros Hmsg Hthrows. destruct s as [ds dump ss tr]. unfold_handler.
  rewrite Hmsg. simpl. rewrite Hthrows. reflexivity.
Qed.

(** The provider rejects the call, or answers with something that cannot be
    iterated: nothing has been written and the reply is the error payload. *)
Lemma post_chat_not_streamed (w : World) (body : chat_body) (s : state) (shown : string) :
  truthy (message body) = true ->
  to_string (message body) = inr shown ->
  (Session.provider_answer w s body = None
   \/ exists choices, Session.provider_answer w s body = Some (Completed choices)) ->
  exists err,
    run (Session.post_chat w body) s
    = (inr tt,
       with_trace (stream_headers
                   ++ [Completion (Session.request_of s body shown);
                       Console "error" [LStr "❌ Chat stream error:"; LErr err];
                       Status 500; Json (error_object "Streaming chat failed.")]) s).
Proof.
  intros Hmsg Hshown Hanswer. destruct s as [ds dump ss tr]. unfold_handler.
  rewrite Hmsg. simpl. rewrite Hshown in Hanswer |- *. simpl.
  destruct Hanswer as [-> | [choices ->]]; simpl; eexists; reflexivity.
Qed.

(** The provider streams.  If the loop gets through the chunks and the
    stream ends, the two turns are stored and the response is closed.  If a
    query does not convert, or the stream breaks, the [catch] runs, and what
    has been written decides between the payload and the marker. *)
Lemma post_chat_streamed
    (w : World) (body : chat_body) (s : state) (shown : string) (chunks : list chunk)
    (ending : stream_end) :
  truthy (message body) = true ->
  to_string (message body) = inr shown ->
  Session.provider_answer w s body = Some (Streamed chunks ending) ->
  exists r new,
    forallb loop_effect new = true
    /\ match r with
       | inr buffer =>
           sublist (tokens chunks) (written new)
           /\ (existsb is_search_failure new = false -> buffer = concat_str (written new))
       | inl e => query_throws w e
       end
    /\ run (Session.post_chat w body) s
       = match r, ending with
         | inr buffer, Done =>
             (inr tt,
              with_sessions
                (<[sessionId body := Session.history_of s body
                                     ++ Session.stored_turns body buffer]> (sessions s))
                (with_trace (stream_headers ++ [Completion (Session.request_of s body shown)]
                             ++ new ++ [End None]) s))
         | _, _ =>
             (inr tt,
              with_trace
                (stream_headers ++ [Completion (Session.request_of s body shown)] ++ new
                 ++ [Console "error" [LStr "❌ Chat stream error:";
                                      LErr match r with
                                           | inl e => e
                                           | inr _ => NetworkError
                                           end]]
                 ++ match written new with
                    | [] => [Status 500; Json (error_object "Streaming chat failed.")]
                    | _ => [End (Some (nl +:+ nl +:+ "[Error: Chat stream failed]"))]
                    end) s)
         end.
Proof.
  intros Hmsg Hshown Hanswer. destruct s as [ds dump ss tr]. unfold_handler.
  rewrite Hmsg. simpl. rewrite Hshown in Hanswer |- *. simpl. rewrite Hanswer.
  match goal with
  | |- context [for_each chunks ?b ?acc ?st] =>
      destruct (for_each_spec w chunks acc st) as (r & new & Hrun & Hloop & Hr);
      rewrite Hrun
  end.
  exists r, new. split; [assumption|]. split; [exact Hr|].
  pose proof (sends_headers_loop new Hloop) as Hsent.
  destruct r as [e|buffer]; [|destruct ending]; simpl; try reflexivity;
    destruct (written new); simpl in Hsent;
    repeat (rewrite ?existsb_app, ?Hsent; simpl);
    rewrite <- ?app_assoc; reflexivity.
Qed.

Lemma loop_not_ended (new : list effect) :
  forallb loop_effect new = true -> ~ In (End None) new.
Proof.
  induction new as [|e new IH]; [intros _ []|].
  simpl. intros H. apply andb_true_iff in H as [He Hnew].
  intros [-> | Hin]; [discriminate He | now apply IH].
Qed.

(** A request whose stream ends, and that closed the response with a plain
    [res.end()], got through the loop: the two turns are stored. *)
Lemma post_chat_ended (w : World) (body : chat_body) (s : state) (chunks : list chunk) :
  truthy (message body) = true ->
  Session.provider_answer w s body = Some (Streamed chunks Done) ->
  ended_plainly (trace (snd (run (Session.post_chat w body) s))) ->
  exists shown buffer new,
    to_string (message body) = inr shown
    /\ run (Session.post_chat w body) s
       = (inr tt,
          with_sessions
            (<[sessionId body := Session.history_of s body
                                 ++ Session.stored_turns body buffer]> (sessions s))
            (with_trace (stream_headers ++ [Completion (Session.request_of s body shown)]
                         ++ new ++ [End None]) s))
    /\ forallb loop_effect new = true
    /\ sublist (tokens chunks) (written new)
    /\ (existsb is_search_failure new = false -> buffer = concat_str (written new)).
Proof.
  intros Hmsg Hanswer. unfold ended_plainly.
  destruct (to_string (message body)) as [e|shown] eqn:Hshown.
  - unfold Session.provider_answer in Hanswer. rewrite Hshown in Hanswer. discriminate.
  - destruct (post_chat_streamed w body s shown chunks Done Hmsg Hshown Hanswer)
      as ([e|buffer] & new & Hloop & Hr & ->).
    + cbn [snd]. rewrite with_trace_trace. simpl. rewrite !in_app_iff.
      intros H. exfalso.
      repeat (destruct H as [H|H]; [discriminate H|]).
      destruct H as [H|H]; [exact (loop_not_ended new Hloop H)|].
      destruct (written new); simpl in H;
        repeat (destruct H as [H|H]; [discriminate H|]); destruct H.
    + intros _. exists shown, buffer, new. destruct Hr as [Hsub Hbuf].
      split; [reflexivity|]. split; [reflexivity|]. auto.
Qed.


Lemma written_of_completed (rq : completion_request) (new : list effect) :
  written (stream_headers ++ [Completion rq] ++ new ++ [End None]) = written new.
Proof. simpl. rewrite written_app. simpl. apply app_nil_r. Qed.

Lemma failures_of_completed (rq : completion_request) (new : list effect) :
  existsb is_search_failure (stream_headers ++ [Completion rq] ++ new ++ [End None])
  = existsb is_search_failure new.
Proof. simpl. rewrite existsb_app. simpl. apply orb_false_r. Qed.

(** C1, as the code has it.  When a [/chat] request of the session handler
    runs to the end of the stream, closing the response with a plain
    [res.end()], and no web search fails on the way, the assistant turn
    stored under the session is the concatenation of all the fragments
    written to the response, and the provider's tokens are written in the
    order of the stream. *)
Theorem written_fragments_are_the_stored_reply
    (w : World) (body : chat_body) (s : state) (chunks : list chunk) :
  truthy (message body) = true ->
  Session.provider_answer w s body = Some (Streamed chunks Done) ->
  ended_plainly (trace (snd (run (Session.post_chat w body) s))) ->
  existsb is_search_failure (trace (snd (run (Session.post_chat w body) s))) = false ->
  sessions (snd (run (Session.post_chat w body) s)) !! sessionId body
  = Some (Session.history_of s body
          ++ Session.stored_turns body
               (concat_str (written (trace (snd (run (Session.post_chat w body) s))))))
  /\ sublist (tokens chunks) (written (trace (snd (run (Session.post_chat w body) s)))).
Proof.
  intros Hmsg Hanswer Hended.
  destruct (post_chat_ended w body s chunks Hmsg Hanswer Hended)
    as (shown & buffer & new & _ & -> & Hloop & Hsub & Hbuf).
  cbn [snd]. unfold with_sessions. cbn [trace sessions with_trace].
  rewrite written_of_completed, failures_of_completed. intros Hfail.
  rewrite lookup_insert_eq, <- (Hbuf Hfail). split; [reflexivity | assumption].
Qed.

Lemma written_fragments_are_the_stored_reply_witness :
  Session.provider_answer
    (Scenario.chatting [Scenario.text_chunk "Run"; Scenario.text_chunk "way";
                        Scenario.search_chunk (JSON_stringify Scenario.query_args)] Done)
    initial (Scenario.ask "news on Runway?" (Some "s1"))
  = Some (Streamed [Scenario.text_chunk "Run"; Scenario.text_chunk "way";
                    Scenario.search_chunk (JSON_stringify Scenario.query_args)] Done)
  /\ sublist ["Run"; "way"]
       (written (trace (snd (run (Session.post_chat
          (Scenario.chatting [Scenario.text_chunk "Run"; Scenario.text_chunk "way";
                              Scenario.search_chunk (JSON_stringify Scenario.query_args)] Done)
          (Scenario.ask "news on Runway?" (Some "s1"))) initial)))).
Proof.
  split; [reflexivity|].
  apply (written_fragments_are_the_stored_reply
           (Scenario.chatting [Scenario.text_chunk "Run"; Scenario.text_chunk "way";
                               Scenario.search_chunk (JSON_stringify Scenario.query_args)] Done)
           (Scenario.ask "news on Runway?" (Some "s1")) initial
           [Scenario.text_chunk "Run"; Scenario.text_chunk "way";
            Scenario.search_chunk (JSON_stringify Scenario.query_args)]);
    [reflexivity | reflexivity | | reflexivity].
  vm_compute. tauto.
Defined.

(** C1 fails when a web search fails: the apology is written to the
    response but not added to the reply that is stored. *)
Lemma apology_is_written_but_not_stored :
  Session.provider_answer
    (Scenario.search_down [Scenario.text_chunk "Hi";
                           Scenario.search_chunk (JSON_stringify Scenario.query_args)])
    initial (Scenario.ask "news on Runway?" (Some "s1"))
  = Some (Streamed [Scenario.text_chunk "Hi";
                    Scenario.search_chunk (JSON_stringify Scenario.query_args)] Done)
  /\ sessions (snd (run (Session.post_chat
        (Scenario.search_down [Scenario.text_chunk "Hi";
                               Scenario.search_chunk (JSON_stringify Scenario.query_args)])
        (Scenario.ask "news on Runway?" (Some "s1"))) initial)) !! Some "s1"
     = Some (Session.stored_turns (Scenario.ask "news on Runway?" (Some "s1")) "Hi")
  /\ written (trace (snd (run (Session.post_chat
        (Scenario.search_down [Scenario.text_chunk "Hi";
                               Scenario.search_chunk (JSON_stringify Scenario.query_args)])
        (Scenario.ask "news on Runway?" (Some "s1"))) initial)))
     = ["Hi"; Session.apology]
  /\ concat_str ["Hi"; Session.apology] <> "Hi"
  /\ ended_plainly (trace (snd (run (Session.post_chat
        (Scenario.search_down [Scenario.text_chunk "Hi";
                               Scenario.search_chunk (JSON_stringify Scenario.query_args)])
        (Scenario.ask "news on Runway?" (Some "s1"))) initial))).
Proof.
  split; [reflexivity|]. split; [vm_compute; reflexivity|]. split; [vm_compute; reflexivity|].
  split; [vm_compute; discriminate|]. vm_compute. tauto.
Qed.

(** A request with a truthy message that converts to text always reaches
    the provider, and the first thing sent is the streaming request built
    from the history. *)
Lemma post_chat_asks_provider (w : World) (body : chat_body) (s : state) (shown : string) :
  truthy (message body) = true ->
  to_string (message body) = inr shown ->
  exists rest,
    completions (trace (snd (run (Session.post_chat w body) s)))
    = Session.request_of s body shown :: rest.
Proof.
  intros Hmsg Hshown.
  destruct (Session.provider_answer w s body) as [[chunks ending|choices]|] eqn:Hanswer.
  - destruct (post_chat_streamed w body s shown chunks ending Hmsg Hshown Hanswer)
      as (r & new & _ & _ & ->).
    destruct r as [e|buffer]; [|destruct ending]; eexists; reflexivity.
  - destruct (post_chat_not_streamed w body s shown Hmsg Hshown) as (err & ->); [eauto|].
    eexists. reflexivity.
  - destruct (post_chat_not_streamed w body s shown Hmsg Hshown) as (err & ->); [eauto|].
    eexists. reflexivity.
Qed.

Lemma express_post_chat_rejected (w : World) (body : chat_body) (s : state) :
  truthy (message body) = false \/ is_string (message body) = false ->
  run (Express.post_chat w body) s
  = (inr tt, with_trace [Status 400; Json (error_object "Missing or invalid 'message'.")] s).
Proof.
  intros H. destruct s. unfold Express.post_chat. unfold_monad.
  destruct H as [-> | ->]; rewrite ?orb_true_r; reflexivity.
Qed.

(** C3, as the code has it.  A [/chat] request whose message is empty,
    missing or not a string is answered with status 400 by the first
    handler, which does not call the provider.  The session handler tests
    only that the message is truthy: it answers 400 without calling the
    provider when the message is empty or missing, and sends any other
    message that converts to text, string or not, to the provider.  A truthy
    message whose conversion throws is not rejected either: it is answered
    with status 500 and the provider is not called. *)
Theorem chat_rejects_invalid_message (w : World) (body : chat_body) (s : state) :
  truthy (message body) = false \/ is_string (message body) = false ->
  rejected_without_completion (trace (snd (run (Express.post_chat w body) s)))
  /\ if truthy (message body)
     then match to_string (message body) with
          | inr shown =>
              exists rest,
                completions (trace (snd (run (Session.post_chat w body) s)))
                = Session.request_of s body shown :: rest
                /\ last (messages (Session.request_of s body shown))
                   = Some {| role := user;
                             content :=
                               Some (VStr ("Here is the full dataset:" +:+ nl
                                           +:+ fullDatasetDump s +:+ nl +:+ nl
                                           +:+ "User: " +:+ shown)) |}
          | inl _ =>
              completions (trace (snd (run (Session.post_chat w body) s))) = []
              /\ json_replies (trace (snd (run (Session.post_chat w body) s)))
                 = [(500, VObj [("error", VStr "Streaming chat failed.")])]
          end
     else rejected_without_completion (trace (snd (run (Session.post_chat w body) s))).
Proof.
  intros Hbad. split.
  - rewrite (express_post_chat_rejected w body s Hbad).
    split; [reflexivity|]. eexists _, _. split; [reflexivity|]. unfold client_error. lia.
  - destruct (truthy (message body)) eqn:Hmsg.
    + destruct (to_string (message body)) as [e|shown] eqn:Hshown.
      * rewrite (post_chat_unconverted w body s e Hmsg Hshown). split; reflexivity.
      * destruct (post_chat_asks_provider w body s shown Hmsg Hshown) as (rest & Hasks).
        exists rest. split; [exact Hasks|].
        unfold Session.request_of, Session.chat_request, Session.prompt_turn.
        cbn [messages]. rewrite app_assoc, last_snoc. reflexivity.
    + rewrite (post_chat_rejected w body s Hmsg).
      split; [reflexivity|]. eexists _, _. split; [reflexivity|]. unfold client_error. lia.
Qed.

Lemma chat_rejects_invalid_message_witness :
  is_string (Some (VNum "0")) = false
  /\ rejected_without_completion
       (trace (snd (run (Express.post_chat Scenario.offline
                           {| message := Some (VNum "0"); sessionId := None |}) initial))).
Proof.
  split; [reflexivity|].
  apply (chat_rejects_invalid_message Scenario.offline
           {| message := Some (VNum "0"); sessionId := None |} initial).
  right. reflexivity.
Defined.

(** C3 fails on the session handler: a message that is a number is not a
    string, and it is sent to the provider instead of being answered 400. *)
Lemma session_chat_accepts_a_number :
  is_string (message {| message := Some (VNum "5"); sessionId := None |}) = false
  /\ completions (trace (snd (run (Session.post_chat Scenario.offline
                                     {| message := Some (VNum "5"); sessionId := None |})
                                  initial)))
     = [Session.chat_request "" [] "5"]
  /\ last (messages (Session.chat_request "" [] "5"))
     = Some {| role := user;
               content := Some (VStr ("Here is the full dataset:" +:+ nl +:+ "" +:+ nl +:+ nl
                                      +:+ "User: " +:+ "5")) |}
  /\ ~ rejected_without_completion
         (trace (snd (run (Session.post_chat Scenario.offline
                             {| message := Some (VNum "5"); sessionId := None |}) initial))).
Proof.
  split; [reflexivity|]. split; [reflexivity|]. split; [reflexivity|].
  intros [H _]. discriminate H.
Qed.

(** C5.  When the streaming call to the provider fails (it is rejected, it
    cannot be made because the message does not convert to text, its answer
    is not a stream, or the stream breaks), the session handler does exactly
    one of two things, and what has been written decides which: if nothing
    has been written, it answers with the one error payload, status 500, and
    no marker; if something has been written, it ends the stream with the
    inline marker and sends no payload. *)
Theorem chat_failure_is_payload_or_marker (w : World) (body : chat_body) (s : state) :
  truthy (message body) = true ->
  provider_fails (Session.provider_answer w s body) ->
  (written (trace (snd (run (Session.post_chat w body) s))) = []
   /\ json_replies (trace (snd (run (Session.post_chat w body) s)))
      = [(500, error_object "Streaming chat failed.")]
   /\ end_markers (trace (snd (run (Session.post_chat w body) s))) = [])
  \/ (written (trace (snd (run (Session.post_chat w body) s))) <> []
      /\ json_replies (trace (snd (run (Session.post_chat w body) s))) = []
      /\ end_markers (trace (snd (run (Session.post_chat w body) s)))
         = [nl +:+ nl +:+ "[Error: Chat stream failed]"]).
Proof.
  intros Hmsg Hfails.
  destruct (to_string (message body)) as [e|shown] eqn:Hshown.
  { rewrite (post_chat_unconverted w body s e Hmsg Hshown).
    left. repeat split; reflexivity. }
  destruct (Session.provider_answer w s body) as [[chunks ending|choices]|] eqn:Hanswer.
  - destruct (post_chat_streamed w body s shown chunks ending Hmsg Hshown Hanswer)
      as (r & new & Hloop & _ & ->).
    assert (match r, ending with inr _, Done => False | _, _ => True end) as Hfailed
      by (destruct r, ending; simpl in *; auto).
    destruct r as [e|buffer]; [|destruct ending; [destruct Hfailed|]];
      cbn [snd]; rewrite with_trace_trace;
      unfold json_replies; simpl; rewrite !written_app, !end_markers_app;
      rewrite (json_replies_from_app _ _ _ Hloop), (end_markers_loop _ Hloop);
      (destruct (written new) eqn:Hw; simpl;
       [left; repeat split; reflexivity
       |right; repeat split; [discriminate | reflexivity..]]).
  - destruct (post_chat_not_streamed w body s shown Hmsg Hshown) as (err & ->); [eauto|].
    left. repeat split; reflexivity.
  - destruct (post_chat_not_streamed w body s shown Hmsg Hshown) as (err & ->); [eauto|].
    left. repeat split; reflexivity.
Qed.

Lemma chat_failure_is_payload_or_marker_witness :
  provider_fails (Session.provider_answer
                    (Scenario.chatting [Scenario.text_chunk "Hel"] Broken) initial
                    (Scenario.ask "hello" None))
  /\ end_markers (trace (snd (run (Session.post_chat
                                     (Scenario.chatting [Scenario.text_chunk "Hel"] Broken)
                                     (Scenario.ask "hello" None)) initial)))
     = [nl +:+ nl +:+ "[Error: Chat stream failed]"].
Proof.
  split; [exact I|].
  destruct (chat_failure_is_payload_or_marker
              (Scenario.chatting [Scenario.text_chunk "Hel"] Broken)
              (Scenario.ask "hello" None) initial eq_refl I) as [[H _] | [_ [_ H]]].
  - discriminate H.
  - exact H.
Defined.

(** What a completed request leaves in the session map, and what the next
    request under the same identifier starts from. *)
Lemma completed_then_history
    (w : World) (body next : chat_body) (s : state) (chunks : list chunk) :
  truthy (message body) = true ->
  Session.provider_answer w s body = Some (Streamed chunks Done) ->
  ended_plainly (trace (snd (run (Session.post_chat w body) s))) ->
  sessionId body = sessionId next ->
  exists reply,
    sessions (snd (run (Session.post_chat w body) s))
    = <[sessionId body := Session.history_of s body ++ Session.stored_turns body reply]>
        (sessions s)
    /\ fullDatasetDump (snd (run (Session.post_chat w body) s)) = fullDatasetDump s
    /\ Session.history_of (snd (run (Session.post_chat w body) s)) next
       = Session.history_of s body ++ Session.stored_turns body reply
    /\ (reply = concat_str (written (trace (snd (run (Session.post_chat w body) s))))
        \/ existsb is_search_failure (trace (snd (run (Session.post_chat w body) s))) = true).
Proof.
  intros Hmsg Hanswer Hended Hsame.
  destruct (post_chat_ended w body s chunks Hmsg Hanswer Hended)
    as (shown & reply & new & _ & -> & Hloop & Hsub & Hbuf).
  exists reply. cbn [snd]. unfold Session.history_of.
  unfold with_sessions. cbn [trace sessions fullDatasetDump with_trace].
  rewrite written_of_completed, failures_of_completed, <- Hsame, lookup_insert_eq.
  split; [reflexivity|]. split; [reflexivity|]. split; [reflexivity|].
  destruct (existsb is_search_failure new); [right; reflexivity | left; now apply Hbuf].
Qed.

(** C4.  After a [/chat] request that ran to the end of its stream and
    closed its response with a plain [res.end()], the next request with the
    same session identifier, when its message converts to text, sends the
    provider a message list that holds, after the system turn and the older
    history, the first request's user message and its accumulated reply, and
    then the new prompt. *)
Theorem second_request_carries_first_turns
    (w1 w2 : World) (body1 body2 : chat_body) (s : state) (chunks : list chunk)
    (shown2 : string) :
  sessionId body1 = sessionId body2 ->
  truthy (message body1) = true ->
  Session.provider_answer w1 s body1 = Some (Streamed chunks Done) ->
  ended_plainly (trace (snd (run (Session.post_chat w1 body1) s))) ->
  truthy (message body2) = true ->
  to_string (message body2) = inr shown2 ->
  exists reply rq rest,
    sessions (snd (run (Session.post_chat w1 body1) s)) !! sessionId body1
    = Some (Session.history_of s body1 ++ Session.stored_turns body1 reply)
    /\ completions (trace (snd (run (Session.post_chat w2 body2)
                                   (snd (run (Session.post_chat w1 body1) s)))))
       = rq :: rest
    /\ messages rq
       = [Session.system_turn] ++ Session.history_of s body1
         ++ [ {| role := user; content := message body1 |};
              {| role := assistant; content := Some (VStr reply) |} ]
         ++ [Session.prompt_turn (fullDatasetDump s) shown2]
    /\ (reply = concat_str (written (trace (snd (run (Session.post_chat w1 body1) s))))
        \/ existsb is_search_failure (trace (snd (run (Session.post_chat w1 body1) s))) = true).
Proof.
  intros Hsame Hmsg1 Hanswer Hended Hmsg2 Hshown2.
  destruct (completed_then_history w1 body1 body2 s chunks Hmsg1 Hanswer Hended Hsame)
    as (reply & Hstore & Hdump & Hhist & Hreply).
  destruct (post_chat_asks_provider w2 body2 (snd (run (Session.post_chat w1 body1) s))
              shown2 Hmsg2 Hshown2)
    as (rest & Hasks).
  exists reply, (Session.request_of (snd (run (Session.post_chat w1 body1) s)) body2 shown2),
    rest.
  split; [rewrite Hstore; apply lookup_insert_eq|]. split; [exact Hasks|].
  split; [|exact Hreply].
  unfold Session.request_of, Session.chat_request. cbn [messages].
  rewrite Hhist, Hdump, <- app_assoc. reflexivity.
Qed.

Lemma second_request_carries_first_turns_witness :
  Session.provider_answer (Scenario.chatting [Scenario.text_chunk "Hello"] Done) initial
    (Scenario.ask "hi" (Some "s1"))
  = Some (Streamed [Scenario.text_chunk "Hello"] Done)
  /\ exists reply rq rest,
       sessions (snd (run (Session.post_chat
                             (Scenario.chatting [Scenario.text_chunk "Hello"] Done)
                             (Scenario.ask "hi" (Some "s1"))) initial)) !! Some "s1"
       = Some ([] ++ Session.stored_turns (Scenario.ask "hi" (Some "s1")) reply)
       /\ completions
            (trace (snd (run (Session.post_chat Scenario.offline
                                (Scenario.ask "and then?" (Some "s1")))
                           (snd (run (Session.post_chat
                                        (Scenario.chatting [Scenario.text_chunk "Hello"] Done)
                                        (Scenario.ask "hi" (Some "s1"))) initial)))))
          = rq :: rest
       /\ messages rq
          = [Session.system_turn] ++ []
            ++ [ {| role := user; content := Some (VStr "hi") |};
                 {| role := assistant; content := Some (VStr reply) |} ]
            ++ [Session.prompt_turn "" "and then?"].
Proof.
  split; [reflexivity|].
  assert (ended_plainly
            (trace (snd (run (Session.post_chat
                                (Scenario.chatting [Scenario.text_chunk "Hello"] Done)
                                (Scenario.ask "hi" (Some "s1"))) initial)))) as Hended
    by (vm_compute; tauto).
  destruct (second_request_carries_first_turns
              (Scenario.chatting [Scenario.text_chunk "Hello"] Done) Scenario.offline
              (Scenario.ask "hi" (Some "s1")) (Scenario.ask "and then?" (Some "s1"))
              initial [Scenario.text_chunk "Hello"] "and then?"
              eq_refl eq_refl eq_refl Hended eq_refl eq_refl)
    as (reply & rq & rest & H1 & H2 & H3 & _).
  exists reply, rq, rest. split; [exact H1|]. split; [exact H2 | exact H3].
Defined.

(** C10.  A [/chat] request without [sessionId] reads the history under the
    key [undefined] and one that runs to the end of its stream stores it
    back under that key, so the next request without [sessionId] starts from
    the turns of the first, which is not the empty history. *)
Theorem requests_without_sessionId_share_history
    (w : World) (body1 body2 : chat_body) (s : state) (chunks : list chunk) :
  sessionId body1 = None ->
  sessionId body2 = None ->
  truthy (message body1) = true ->
  Session.provider_answer w s body1 = Some (Streamed chunks Done) ->
  ended_plainly (trace (snd (run (Session.post_chat w body1) s))) ->
  Session.history_of s body1 = default [] (sessions s !! None)
  /\ exists reply,
       sessions (snd (run (Session.post_chat w body1) s))
       = <[None := default [] (sessions s !! None) ++ Session.stored_turns body1 reply]>
           (sessions s)
       /\ Session.history_of (snd (run (Session.post_chat w body1) s)) body2
          = default [] (sessions s !! None) ++ Session.stored_turns body1 reply
       /\ Session.history_of (snd (run (Session.post_chat w body1) s)) body2 <> [].
Proof.
  intros Hnone1 Hnone2 Hmsg Hanswer Hended.
  assert (sessionId body1 = sessionId body2) as Hsame by congruence.
  destruct (completed_then_history w body1 body2 s chunks Hmsg Hanswer Hended Hsame)
    as (reply & Hstore & _ & Hhist & _).
  unfold Session.history_of at 1. rewrite Hnone1. split; [reflexivity|].
  exists reply. rewrite Hstore, Hhist. unfold Session.history_of. rewrite Hnone1.
  split; [reflexivity|]. split; [reflexivity|].
  intros H. apply app_eq_nil in H as [_ H]. discriminate H.
Qed.

Lemma requests_without_sessionId_share_history_witness :
  sessionId (Scenario.ask "hi" None) = None
  /\ Session.history_of
       (snd (run (Session.post_chat (Scenario.chatting [Scenario.text_chunk "Hello"] Done)
                    (Scenario.ask "hi" None)) initial))
       (Scenario.ask "who am I?" None)
     <> [].
Proof.
  split; [reflexivity|].
  assert (ended_plainly
            (trace (snd (run (Session.post_chat
                                (Scenario.chatting [Scenario.text_chunk "Hello"] Done)
                                (Scenario.ask "hi" None)) initial)))) as Hended
    by (vm_compute; tauto).
  destruct (requests_without_sessionId_share_history
              (Scenario.chatting [Scenario.text_chunk "Hello"] Done)
              (Scenario.ask "hi" None) (Scenario.ask "who am I?" None) initial
              [Scenario.text_chunk "Hello"] eq_refl eq_refl eq_refl eq_refl Hended)
    as (_ & reply & _ & _ & H).
  exact H.
Defined.





(** ** The handlers at work *)

Example summary_keeps_three_results :
  Session.summary Scenario.results
  = join nl ["• [Runway](https://runwayml.com) — Gen-3";
             "• [News](https://example.org/a) — ";
             "• [Blog](https://example.org/b) — "].
Proof. reflexivity. Qed.

Example summary_cuts_descriptions :
  Session.summary
    [ {| title := "Long"; link := "https://example.org/l";
         description := Some (concat_str (repeat "—" 201) +:+ "tail") |} ]
  = "• [Long](https://example.org/l) — " +:+ concat_str (repeat "—" 200).
Proof. vm_compute. reflexivity. Qed.

Example chat_with_search :
  let w := Scenario.chatting [Scenario.text_chunk "Run"; Scenario.text_chunk "way";
                              Scenario.search_chunk (JSON_stringify Scenario.query_args)] Done in
  let s' := snd (run (Session.post_chat w (Scenario.ask "news on Runway?" (Some "s1"))) initial) in
  written (trace s') = ["Run"; "way"; nl +:+ nl +:+ "Runway released Gen-3."]
  /\ searches (trace s') = [Some (VStr "Runway")]
  /\ sessions s' !! Some "s1"
     = Some (Session.stored_turns (Scenario.ask "news on Runway?" (Some "s1"))
               ("Runway" +:+ nl +:+ nl +:+ "Runway released Gen-3.")).
Proof. vm_compute. repeat split; reflexivity. Qed.

Example chat_with_unparsed_arguments :
  let w := Scenario.chatting [Scenario.search_chunk "{"; Scenario.text_chunk "Done."] Done in
  let s' := snd (run (Session.post_chat w (Scenario.ask "news?" None)) initial) in
  written (trace s') = ["Done."] /\ searches (trace s') = []
  /\ length (completions (trace s')) = 1%nat.
Proof. vm_compute. repeat split; reflexivity. Qed.

Example first_handler_breaks_after_output :
  fst (run (Express.post_chat (Scenario.chatting [Scenario.text_chunk "Hel"] Broken)
              (Scenario.ask "hello" None)) initial)
  = inl HeadersSent.
Proof. vm_compute. reflexivity. Qed.

Example lambda_null_body :
  fst (run (Lambda.handler
              {| JSON_parse := fun _ => Some VNull; fetch := fun _ _ => None;
                 completions_create := fun _ _ => None; google_search := fun _ _ => None |}
              Scenario.no_tenant (Scenario.post "/embed-token" (Some "null"))) initial)
  = inr (Lambda.json_result 500 (error_object "Internal server error")).
Proof. reflexivity. Qed.

(** A message that is a number reaches the provider in the form the engine
    prints it. *)
Example chat_with_a_large_number :
  completions
    (trace (snd (run (Session.post_chat Scenario.offline
                        {| message := Some (VNum "1e+21"); sessionId := None |}) initial)))
  = [Session.chat_request "" [] "1e+21"]
  /\ last (messages (Session.chat_request "" [] "1e+21"))
     = Some {| role := user;
               content := Some (VStr ("Here is the full dataset:" +:+ nl +:+ nl +:+ nl
                                      +:+ "User: 1e+21")) |}.
Proof. split; reflexivity. Qed.

(** A message that is an object with an own [toString] is truthy, and the
    session handler answers it with status 500 without calling the
    provider. *)
Example chat_with_unprintable_message :
  let s' := snd (run (Session.post_chat (Scenario.chatting [Scenario.text_chunk "Hi"] Done)
                        {| message := Some Scenario.unprintable; sessionId := Some "s1" |})
                   initial) in
  truthy (Some Scenario.unprintable) = true
  /\ completions (trace s') = []
  /\ json_replies (trace s') = [(500, error_object "Streaming chat failed.")]
  /\ sessions s' = sessions initial.
Proof. vm_compute. repeat split; reflexivity. Qed.

(** A query that is such an object ends the whole request: the marker is
    sent after the token already written, no search runs and nothing is
    stored. *)
Example chat_with_unprintable_query :
  let w := Scenario.chatting_oddly
             [Scenario.text_chunk "Hi";
              Scenario.search_chunk (JSON_stringify Scenario.odd_query_args);
              Scenario.text_chunk "there"] Done in
  let s' := snd (run (Session.post_chat w (Scenario.ask "news?" (Some "s1"))) initial) in
  written (trace s') = ["Hi"]
  /\ searches (trace s') = []
  /\ end_markers (trace s') = [nl +:+ nl +:+ "[Error: Chat stream failed]"]
  /\ sessions s' = sessions initial.
Proof. vm_compute. repeat split; reflexivity. Qed.

(** A token that is such an object: the Lambda answers through its outer
    [catch], the Express handler through its own, and neither calls the BI
    service. *)
Example embed_token_with_unprintable_token :
  run (Lambda.handler Scenario.accepting_oddly Scenario.no_tenant
         (Scenario.post "/embed-token" (Some (JSON_stringify Scenario.odd_token_body))))
      initial
  = (inr (Lambda.json_result 500 (error_object "Internal server error")),
     with_trace [Console "error" [LStr "Unhandled error in handler:"; LErr TypeError]] initial)
  /\ trace (snd (run (Express.post_embed_token Scenario.accepting_oddly
                           Scenario.odd_token_body)
                    initial))
     = [Console "error" [LStr "Embed token error:"; LErr TypeError];
        Status 500; Json (error_object "Failed to get embed token")].
Proof. vm_compute. split; reflexivity. Qed.
(** * Further properties *)

(** ** Paths of the Lambda handler *)

Lemma append_cons (a : ascii) (r x : string) : String a r +:+ x = String a (r +:+ x).
Proof. reflexivity. Qed.

Lemma before_query_cut (r q : string) :
  has_char "?" r = false -> Lambda.before_query (r +:+ "?" +:+ q) = r.
Proof.
  induction r as [|a r IH]; intros H.
  - reflexivity.
  - simpl in H. apply orb_false_iff in H as [Ha Hr].
    rewrite append_cons. simpl. rewrite Ha, IH by assumption. reflexivity.
Qed.

Lemma before_query_whole (r : string) :
  has_char "?" r = false -> Lambda.before_query r = r.
Proof.
  induction r as [|a r IH]; intros H; [reflexivity|].
  simpl in H. apply orb_false_iff in H as [Ha Hr].
  simpl. rewrite Ha, IH by assumption. reflexivity.
Qed.

Lemma has_char_app (c : ascii) (r x : string) :
  has_char c (r +:+ x) = has_char c r || has_char c x.
Proof.
  induction r as [|a r IH]; [reflexivity|].
  rewrite append_cons. simpl. rewrite IH. apply orb_assoc.
Qed.

Lemma ends_with_slash_app (r : string) : Lambda.ends_with_slash (r +:+ "/") = true.
Proof.
  induction r as [|a r IH]; [reflexivity|].
  rewrite append_cons. simpl. destruct (r +:+ "/") eqn:E; [|exact IH].
  destruct r; discriminate E.
Qed.

Lemma drop_last_app (r : string) : Lambda.drop_last (r +:+ "/") = r.
Proof.
  induction r as [|a r IH]; [reflexivity|].
  rewrite append_cons. simpl. destruct (r +:+ "/") eqn:E.
  - destruct r; discriminate E.
  - now rewrite IH.
Qed.

Lemma slashed_is_longer (r : string) : r <> "" -> String.eqb (r +:+ "/") "/" = false.
Proof.
  destruct r as [|a r]; [congruence|]. intros _.
  rewrite append_cons. apply String.eqb_neq. intros H. injection H as _ H.
  destruct r; discriminate H.
Qed.

Lemma nonempty_app (r x : string) : r <> "" -> String.eqb (r +:+ x) "" = false.
Proof. destruct r; [congruence|]. reflexivity. Qed.

(** X1.  A route that has no query mark in it is found again when a query
    string, one trailing slash, or both are added to it; a second trailing
    slash is kept. *)
Theorem normalizePath_drops_query_and_one_slash (r q : string) :
  r <> "" ->
  has_char "?" r = false ->
  Lambda.normalizePath (r +:+ "?" +:+ q) = Lambda.normalizePath r
  /\ Lambda.normalizePath (r +:+ "/") = r
  /\ Lambda.normalizePath ((r +:+ "/") +:+ "?" +:+ q) = r
  /\ Lambda.normalizePath ((r +:+ "/") +:+ "/") = r +:+ "/".
Proof.
  intros Hr Hq.
  assert (has_char "?" (r +:+ "/") = false) as Hq1
    by (rewrite has_char_app, Hq; reflexivity).
  assert (has_char "?" ((r +:+ "/") +:+ "/") = false) as Hq2
    by (rewrite has_char_app, Hq1; reflexivity).
  assert (r +:+ "/" <> "") as Hr1 by (destruct r; [congruence | discriminate]).
  unfold Lambda.normalizePath.
  rewrite !nonempty_app by assumption.
  rewrite !before_query_cut, !before_query_whole by assumption.
  rewrite !ends_with_slash_app, !drop_last_app, !slashed_is_longer by assumption.
  destruct r as [|a r]; [congruence|]. repeat split; reflexivity.
Qed.

Lemma normalizePath_drops_query_and_one_slash_witness :
  has_char "?" "/embed-token" = false
  /\ Lambda.normalizePath (("/embed-token" +:+ "/") +:+ "?" +:+ "a=1&b=/") = "/embed-token".
Proof.
  split; [reflexivity|].
  apply (normalizePath_drops_query_and_one_slash "/embed-token" "a=1&b=/");
    [discriminate | reflexivity].
Defined.

(** ** Answers of the Lambda handler *)

(** X2.  The Lambda handler never throws: whatever the event, the
    configuration and the answers of the outside, it returns a result whose
    status is 200, 400, 404 or 500 and whose headers start with the CORS
    headers, and it makes at most one outbound call. *)
Theorem lambda_handler_always_answers (w : World) (e : env) (ev : Lambda.event) (s : state) :
  exists r log more,
    Lambda.handler w e ev s = (inr r, with_trace (trace s ++ log) s)
    /\ In (Lambda.statusCode r) [200; 400; 404; 500]
    /\ Lambda.out_headers r = Lambda.CORS_HEADERS ++ more
    /\ (length (fetches log) <= 1)%nat.
Proof.
  destruct s as [ds dump ss tr].
  unfold Lambda.handler, Lambda.request_body, Lambda.handleAuthToken, Lambda.handleEmbedToken.
  unfold_monad.
  destruct (String.eqb (Lambda.request_method ev) "OPTIONS");
    [|destruct (nonempty (Lambda.ev_body ev));
      [destruct (JSON_parse w (show (Lambda.ev_body ev)))|];
      (destruct (Lambda.is_post ev "/auth-token");
       [|destruct (Lambda.is_post ev "/embed-token")])];
    simpl; case_matches;
    rewrite <- ?app_assoc; simpl;
    (first [ eexists _, [], _; rewrite app_nil_r; split; [reflexivity|]
           | eexists _, _, _; split; [reflexivity|] ]);
    simpl; (split; [tauto|]); (split; [|lia]);
    first [ reflexivity | exact (eq_sym (app_nil_r _)) ].
Qed.

(** X3.  Only a POST to one of the two routes can reach the outside: any
    other event is answered without an outbound call, with the empty 200 of
    the preflight when the method is OPTIONS (the body is not even parsed)
    and with 404 otherwise. *)
Theorem lambda_other_events_stay_local (w : World) (e : env) (ev : Lambda.event) (s : state) :
  Lambda.is_post ev "/auth-token" = false ->
  Lambda.is_post ev "/embed-token" = false ->
  fetches (trace (snd (run (Lambda.handler w e ev) s))) = []
  /\ fst (run (Lambda.handler w e ev) s)
     = inr (if String.eqb (Lambda.request_method ev) "OPTIONS"
            then {| Lambda.statusCode := 200; Lambda.out_headers := Lambda.CORS_HEADERS;
                    Lambda.out_body := "" |}
            else Lambda.json_result 404 (error_object "Not found"))
  /\ (String.eqb (Lambda.request_method ev) "OPTIONS" = true ->
      trace (snd (run (Lambda.handler w e ev) s)) = []).
Proof.
  intros Hauth Hembed. unfold run, Lambda.handler, try_catch, bind.
  destruct (String.eqb (Lambda.request_method ev) "OPTIONS").
  - repeat split; reflexivity.
  - destruct (lambda_request_body w ev (with_trace [] s)) as (log & -> & Hlog).
    rewrite Hauth, Hembed. simpl. repeat split; [assumption | discriminate].
Qed.

Lemma lambda_other_events_stay_local_witness :
  Lambda.is_post (Demo.get "/auth-token") "/auth-token" = false
  /\ fst (run (Lambda.handler Demo.steady Demo.full_env (Demo.get "/auth-token")) initial)
     = inr (Lambda.json_result 404 (error_object "Not found"))
  /\ trace (snd (run (Lambda.handler Demo.steady Demo.full_env (Demo.options "/embed-token"))
                   initial)) = [].
Proof.
  split; [reflexivity|]. split.
  - apply (lambda_other_events_stay_local Demo.steady Demo.full_env (Demo.get "/auth-token")
             initial); reflexivity.
  - apply (lambda_other_events_stay_local Demo.steady Demo.full_env
             (Demo.options "/embed-token") initial); reflexivity.
Defined.

Lemma credentials_set (e : env) :
  ~ missing_credentials e ->
  negb (nonempty (TENANT_ID e)) || negb (nonempty (CLIENT_ID e))
  || negb (nonempty (CLIENT_SECRET e)) = false.
Proof.
  unfold missing_credentials. intros H.
  destruct (nonempty (TENANT_ID e)), (nonempty (CLIENT_ID e)), (nonempty (CLIENT_SECRET e));
    simpl; tauto.
Qed.

(** What [handleEmbedToken] does once it has a token that converts. *)
Lemma handleEmbedToken_run
    (w : World) (body : value) (tok : option value) (shown : string) (s : state) :
  get_prop (Some body) "authToken" = inr tok ->
  truthy tok = true ->
  to_string tok = inr shown ->
  let rq := embed_request Lambda.GROUP_ID Lambda.REPORT_ID shown in
  let s1 := with_trace (trace s ++ [Fetch rq]) s in
  Lambda.handleEmbedToken w body s
  = match fetch w (length (trace s)) rq with
    | None => (inl NetworkError, s1)
    | Some resp =>
        if ok resp then
          match JSON_parse w (text resp) with
          | Some data => (inr (Lambda.json_result 200 data), s1)
          | None => (inl SyntaxError, s1)
          end
        else
          (inr (Lambda.json_result 500 (error_object "Failed to get embed token")),
           with_trace (trace s ++ [Fetch rq;
                                   Console "error" [LStr "Embed token request failed:";
                                                    LNum (status resp); LStr (text resp)]]) s)
    end.
Proof.
  intros Htok Htruthy Hshown. destruct s as [ds dump ss tr].
  unfold Lambda.handleEmbedToken, bind, lift. rewrite Htok. unfold ret at 1.
  rewrite Htruthy. unfold_monad. rewrite Hshown. simpl.
  destruct (fetch w (length tr) _) as [resp|]; [|reflexivity].
  destruct (ok resp); simpl.
  - destruct (JSON_parse w (text resp)); reflexivity.
  - rewrite <- app_assoc. reflexivity.
Qed.

(** What [handleAuthToken] does once the configuration is complete. *)
Lemma handleAuthToken_run (w : World) (e : env) (s : state) :
  ~ missing_credentials e ->
  let rq := auth_request (show (TENANT_ID e)) (show (CLIENT_ID e)) (show (CLIENT_SECRET e)) in
  let s1 := with_trace (trace s ++ [Fetch rq]) s in
  Lambda.handleAuthToken w e s
  = match fetch w (length (trace s)) rq with
    | None => (inl NetworkError, s1)
    | Some resp =>
        if ok resp then
          match JSON_parse w (text resp) with
          | Some data => (inr (Lambda.json_result 200 data), s1)
          | None => (inl SyntaxError, s1)
          end
        else
          (inr (Lambda.json_result 500 (error_object "Failed to fetch auth token")),
           with_trace (trace s ++ [Fetch rq;
                                   Console "error" [LStr "Auth token request failed:";
                                                    LNum (status resp); LStr (text resp)]]) s)
    end.
Proof.
  intros Hcreds. destruct s as [ds dump ss tr].
  unfold Lambda.handleAuthToken. rewrite (credentials_set e Hcreds).
  unfold_monad. simpl.
  destruct (fetch w (length tr) _) as [resp|]; [|reflexivity].
  destruct (ok resp); simpl.
  - destruct (JSON_parse w (text resp)); reflexivity.
  - rewrite <- app_assoc. reflexivity.
Qed.

Lemma fetches_app (t u : list effect) : fetches (t ++ u) = fetches t ++ fetches u.
Proof. apply flat_map_app. Qed.

(** X4.  With a token in the body that converts to text and an upstream
    that accepts, the Lambda makes exactly one call, a POST to the
    [GenerateToken] address of the fixed workspace and report, with a JSON
    content type, an Authorization header that is [Bearer] followed by the
    text of the token, and a body asking for access level [View]; it then
    answers with status 200, the CORS and JSON headers, and the upstream
    JSON printed again. *)
Theorem lambda_embed_token_relays_upstream
    (w : World) (e : env) (ev : Lambda.event) (s : state) (tok : option value)
    (shown : string) (resp : response) (data : value) :
  Lambda.is_post ev "/embed-token" = true ->
  get_prop (Some (Lambda.parsed_body w ev)) "authToken" = inr tok ->
  truthy tok = true ->
  to_string tok = inr shown ->
  (forall t, fetch w t (embed_request Lambda.GROUP_ID Lambda.REPORT_ID shown) = Some resp) ->
  ok resp = true ->
  JSON_parse w (text resp) = Some data ->
  fst (run (Lambda.handler w e ev) s)
  = inr {| Lambda.statusCode := 200;
           Lambda.out_headers :=
             [("Access-Control-Allow-Origin", "*");
              ("Access-Control-Allow-Headers", "Content-Type");
              ("Access-Control-Allow-Methods", "OPTIONS,POST");
              ("Content-Type", "application/json")];
           Lambda.out_body := JSON_stringify data |}
  /\ fetches (trace (snd (run (Lambda.handler w e ev) s)))
     = [ {| url := "https://api.powerbi.com/v1.0/myorg/groups/"
                   +:+ "4c6a6199-2d9c-423c-a366-7e72edc983ad" +:+ "/reports/"
                   +:+ "9f92cc54-8318-44c4-a671-a020ea14ef56" +:+ "/GenerateToken";
            method := "POST";
            headers := [("Content-Type", "application/json");
                        ("Authorization", "Bearer " +:+ shown)];
            body := Text ("{" +:+ dq +:+ "accessLevel" +:+ dq +:+ ":" +:+ dq +:+ "View"
                          +:+ dq +:+ "}") |} ].
Proof.
  intros Hroute Htok Htruthy Hshown Hfetch Hok Hdata. unfold run.
  destruct (handler_embed_route w e ev (with_trace [] s) Hroute) as (log & Hlog & ->).
  unfold try_catch. rewrite (handleEmbedToken_run _ _ _ _ _ Htok Htruthy Hshown).
  rewrite Hfetch, Hok, Hdata. cbn [fst snd]. rewrite !with_trace_trace, !fetches_app, Hlog.
  split; reflexivity.
Qed.

Lemma lambda_embed_token_relays_upstream_witness :
  truthy (Some (VStr "abc")) = true
  /\ fst (run (Lambda.handler Demo.steady Demo.full_env
                 (Scenario.post "/embed-token" (Some (JSON_stringify Scenario.token_body))))
            initial)
     = inr {| Lambda.statusCode := 200;
              Lambda.out_headers :=
                [("Access-Control-Allow-Origin", "*");
                 ("Access-Control-Allow-Headers", "Content-Type");
                 ("Access-Control-Allow-Methods", "OPTIONS,POST");
                 ("Content-Type", "application/json")];
              Lambda.out_body := JSON_stringify Scenario.token_body |}.
Proof.
  split; [reflexivity|].
  apply (lambda_embed_token_relays_upstream Demo.steady Demo.full_env
           (Scenario.post "/embed-token" (Some (JSON_stringify Scenario.token_body)))
           initial (Some (VStr "abc")) "abc"
           {| ok := true; status := 200; text := JSON_stringify Scenario.token_body |}
           Scenario.token_body); reflexivity.
Defined.

(** X5.  When the upstream cannot be reached at all, a well-formed request
    to either route (for the embed route, one whose token converts to text)
    is answered by the outer [catch]: status 500 and
    [Internal server error], not the message of the route. *)
Theorem lambda_unreachable_upstream_is_internal_error
    (w : World) (e : env) (ev : Lambda.event) (s : state) (tok : option value)
    (shown : string) :
  (forall t rq, fetch w t rq = None) ->
  (Lambda.is_post ev "/auth-token" = true /\ ~ missing_credentials e)
  \/ (Lambda.is_post ev "/embed-token" = true
      /\ get_prop (Some (Lambda.parsed_body w ev)) "authToken" = inr tok
      /\ truthy tok = true
      /\ to_string tok = inr shown) ->
  fst (run (Lambda.handler w e ev) s)
  = inr (Lambda.json_result 500 (error_object "Internal server error"))
  /\ length (fetches (trace (snd (run (Lambda.handler w e ev) s)))) = 1%nat.
Proof.
  intros Hdown [[Hroute Hcreds] | (Hroute & Htok & Htruthy & Hshown)]; unfold run.
  - destruct (handler_auth_route w e ev (with_trace [] s) Hroute) as (log & Hlog & ->).
    unfold try_catch. rewrite (handleAuthToken_run _ _ _ Hcreds), Hdown.
    unfold_monad. simpl. rewrite !fetches_app, Hlog. split; reflexivity.
  - destruct (handler_embed_route w e ev (with_trace [] s) Hroute) as (log & Hlog & ->).
    unfold try_catch. rewrite (handleEmbedToken_run _ _ _ _ _ Htok Htruthy Hshown), Hdown.
    unfold_monad. simpl. rewrite !fetches_app, Hlog. split; reflexivity.
Qed.

Lemma lambda_unreachable_upstream_is_internal_error_witness :
  ~ missing_credentials Demo.full_env
  /\ fst (run (Lambda.handler Scenario.offline Demo.full_env (Scenario.post "/auth-token" None))
            initial)
     = inr (Lambda.json_result 500 (error_object "Internal server error")).
Proof.
  assert (~ missing_credentials Demo.full_env) as H
    by (intros [H | [H | H]]; discriminate H).
  split; [exact H|].
  apply (lambda_unreachable_upstream_is_internal_error Scenario.offline Demo.full_env
           (Scenario.post "/auth-token" None) initial None "" (fun _ _ => eq_refl)).
  left. split; [reflexivity | exact H].
Defined.

(** X6.  With all three credentials set, the Lambda sends exactly one
    client-credentials request, built from the configuration; when the
    identity provider answers it with a non-success status the client gets
    status 500 and the fixed message, whatever that answer held. *)
Theorem lambda_auth_token_failure_is_generic
    (w : World) (e : env) (ev : Lambda.event) (s : state) (resp : response) :
  Lambda.is_post ev "/auth-token" = true ->
  ~ missing_credentials e ->
  (forall t, fetch w t (auth_request (show (TENANT_ID e)) (show (CLIENT_ID e))
                          (show (CLIENT_SECRET e))) = Some resp) ->
  ok resp = false ->
  fst (run (Lambda.handler w e ev) s)
  = inr (Lambda.json_result 500 (error_object "Failed to fetch auth token"))
  /\ fetches (trace (snd (run (Lambda.handler w e ev) s)))
     = [auth_request (show (TENANT_ID e)) (show (CLIENT_ID e)) (show (CLIENT_SECRET e))].
Proof.
  intros Hroute Hcreds Hfetch Hok. unfold run.
  destruct (handler_auth_route w e ev (with_trace [] s) Hroute) as (log & Hlog & ->).
  unfold try_catch. rewrite (handleAuthToken_run _ _ _ Hcreds), Hfetch, Hok.
  cbn [fst snd]. rewrite !with_trace_trace, !fetches_app, Hlog. split; reflexivity.
Qed.

Lemma lambda_auth_token_failure_is_generic_witness :
  ~ missing_credentials Demo.full_env
  /\ fst (run (Lambda.handler Scenario.refusing Demo.full_env
                 (Scenario.post "/auth-token/" (Some "not json"))) initial)
     = inr (Lambda.json_result 500 (error_object "Failed to fetch auth token")).
Proof.
  assert (~ missing_credentials Demo.full_env) as H
    by (intros [H | [H | H]]; discriminate H).
  split; [exact H|].
  apply (lambda_auth_token_failure_is_generic Scenario.refusing Demo.full_env
           (Scenario.post "/auth-token/" (Some "not json")) initial
           {| ok := false; status := 401; text := "AADSTS700016: application not found" |});
    [reflexivity | exact H | reflexivity | reflexivity].
Defined.

(** X7.  A body that is the JSON literal [null] does not count as a missing
    token: reading [authToken] off it throws, and the request to the embed
    route is answered 500 by the outer [catch], with no outbound call. *)
Theorem lambda_null_body_is_internal_error
    (w : World) (e : env) (ev : Lambda.event) (s : state) :
  Lambda.is_post ev "/embed-token" = true ->
  Lambda.parsed_body w ev = VNull ->
  fst (run (Lambda.handler w e ev) s)
  = inr (Lambda.json_result 500 (error_object "Internal server error"))
  /\ fetches (trace (snd (run (Lambda.handler w e ev) s))) = [].
Proof.
  intros Hroute Hnull. unfold run.
  destruct (handler_embed_route w e ev (with_trace [] s) Hroute) as (log & Hlog & ->).
  rewrite Hnull. unfold Lambda.handleEmbedToken. unfold_monad. simpl.
  rewrite !fetches_app, Hlog. split; reflexivity.
Qed.

Lemma lambda_null_body_is_internal_error_witness :
  Lambda.parsed_body
    {| JSON_parse := fun _ => Some VNull; fetch := fun _ _ => None;
       completions_create := fun _ _ => None; google_search := fun _ _ => None |}
    (Scenario.post "/embed-token" (Some "null")) = VNull
  /\ fetches (trace (snd (run (Lambda.handler
        {| JSON_parse := fun _ => Some VNull; fetch := fun _ _ => None;
           completions_create := fun _ _ => None; google_search := fun _ _ => None |}
        Demo.full_env (Scenario.post "/embed-token" (Some "null"))) initial))) = [].
Proof.
  split; [reflexivity|].
  apply (lambda_null_body_is_internal_error
           {| JSON_parse := fun _ => Some VNull; fetch := fun _ _ => None;
              completions_create := fun _ _ => None; google_search := fun _ _ => None |}
           Demo.full_env (Scenario.post "/embed-token" (Some "null")) initial);
    reflexivity.
Defined.

(** ** The first [/chat] handler and the Express token endpoints *)

(** A loop that only relays writes one fragment for each chunk. *)
Lemma relay_loop (chunks : list chunk) (s : state) :
  for_each chunks (fun chunk (_ : unit) => res_write (or_else (delta_content chunk) "")) tt s
  = (inr tt, with_trace (trace s ++ List.map echo chunks) s).
Proof.
  revert s. induction chunks as [|c rest IH]; intros s.
  - simpl. unfold ret. rewrite app_nil_r. now destruct s.
  - simpl for_each. unfold bind, res_write, emit at 1. rewrite IH.
    rewrite with_trace_trace, with_trace_twice, <- app_assoc. reflexivity.
Qed.

Lemma written_echo (chunks : list chunk) :
  written (List.map echo chunks)
  = List.map (fun c => or_else (delta_content c) "") chunks.
Proof. induction chunks as [|c rest IH]; [reflexivity|]. simpl. now rewrite IH. Qed.

Lemma sends_headers_echo (chunks : list chunk) :
  existsb sends_headers (List.map echo chunks) = negb (Nat.eqb (length chunks) 0).
Proof. destruct chunks; reflexivity. Qed.

(** A string is its own conversion. *)
Lemma string_converts (x : option value) (text : string) :
  is_string x = true -> to_string x = inr text -> x = Some (VStr text).
Proof.
  destruct x as [[| b | n | t | items | fields]|]; simpl; intros H; try discriminate H.
  now intros [= ->].
Qed.

(** X8.  When the stream of the first handler runs to its end, the response
    gets one write for each chunk of the stream, in order, the empty text
    for a chunk without content, and is then closed; nothing else happens
    but the three headers and the one request to the provider. *)
Theorem express_chat_relays_every_chunk
    (w : World) (body : chat_body) (s : state) (text : string) (chunks : list chunk) :
  truthy (message body) = true ->
  is_string (message body) = true ->
  to_string (message body) = inr text ->
  completions_create w 3%nat (Express.chat_request (dataset s) text)
  = Some (Streamed chunks Done) ->
  run (Express.post_chat w body) s
  = (inr tt,
     with_trace (stream_headers
                 ++ [Completion (Express.chat_request (dataset s) text)]
                 ++ List.map echo chunks ++ [End None]) s)
  /\ written (trace (snd (run (Express.post_chat w body) s)))
     = List.map (fun c => or_else (delta_content c) "") chunks.
Proof.
  intros Hmsg Hstr Htext Hanswer.
  assert (run (Express.post_chat w body) s
          = (inr tt,
             with_trace (stream_headers
                         ++ [Completion (Express.chat_request (dataset s) text)]
                         ++ List.map echo chunks ++ [End None]) s)) as Hrun.
  { destruct s as [ds dump ss tr]. unfold Express.post_chat, for_await.
    rewrite Hmsg, Hstr. unfold_monad. rewrite Htext. simpl in *. rewrite Hanswer.
    rewrite relay_loop. reflexivity. }
  rewrite Hrun. split; [reflexivity|].
  cbn [snd]. rewrite with_trace_trace. simpl. rewrite written_app, written_echo. simpl.
  apply app_nil_r.
Qed.

Lemma express_chat_relays_every_chunk_witness :
  is_string (message (Scenario.ask "which tools do video?" None)) = true
  /\ written (trace (snd (run (Express.post_chat
        (Scenario.chatting [Scenario.text_chunk "Run"; Scenario.search_chunk "{}";
                            Scenario.text_chunk "way"] Done)
        (Scenario.ask "which tools do video?" None)) Demo.loaded)))
     = ["Run"; ""; "way"].
Proof.
  split; [reflexivity|].
  apply (express_chat_relays_every_chunk
           (Scenario.chatting [Scenario.text_chunk "Run"; Scenario.search_chunk "{}";
                               Scenario.text_chunk "way"] Done)
           (Scenario.ask "which tools do video?" None) Demo.loaded "which tools do video?"
           [Scenario.text_chunk "Run"; Scenario.search_chunk "{}"; Scenario.text_chunk "way"]);
    reflexivity.
Defined.

(** X9.  When the stream of the first handler breaks, its [catch] tries the
    error payload whatever has been sent.  If no chunk had arrived, the
    client gets the payload with status 500.  If a chunk had been relayed,
    sending the payload throws in its turn: the handler rejects, and the
    response gets neither a payload nor an end. *)
Theorem express_chat_breaks_after_output
    (w : World) (body : chat_body) (s : state) (text : string) (chunks : list chunk) :
  truthy (message body) = true ->
  is_string (message body) = true ->
  to_string (message body) = inr text ->
  completions_create w 3%nat (Express.chat_request (dataset s) text)
  = Some (Streamed chunks Broken) ->
  match chunks with
  | [] =>
      fst (run (Express.post_chat w body) s) = inr tt
      /\ json_replies (trace (snd (run (Express.post_chat w body) s)))
         = [(500, error_object "Streaming chat failed.")]
  | _ :: _ =>
      fst (run (Express.post_chat w body) s) = inl HeadersSent
      /\ existsb terminal (trace (snd (run (Express.post_chat w body) s))) = false
      /\ written (trace (snd (run (Express.post_chat w body) s)))
         = List.map (fun c => or_else (delta_content c) "") chunks
  end.
Proof.
  intros Hmsg Hstr Htext Hanswer. destruct s as [ds dump ss tr].
  unfold Express.post_chat, for_await. rewrite Hmsg, Hstr. unfold_monad. rewrite Htext.
  simpl in *.
  rewrite Hanswer. rewrite relay_loop. simpl.
  destruct chunks as [|c rest]; simpl; [split; reflexivity|].
  rewrite !existsb_app. simpl. split; [reflexivity|]. split.
  - rewrite orb_false_r. clear. induction rest as [|c' rest IH]; [reflexivity | exact IH].
  - rewrite !written_app, written_echo. simpl. now rewrite !app_nil_r.
Qed.

Lemma express_chat_breaks_after_output_witness :
  is_string (message (Scenario.ask "hello" None)) = true
  /\ fst (run (Express.post_chat (Scenario.chatting [Scenario.text_chunk "Hel"] Broken)
                 (Scenario.ask "hello" None)) initial) = inl HeadersSent.
Proof.
  split; [reflexivity|].
  apply (express_chat_breaks_after_output
           (Scenario.chatting [Scenario.text_chunk "Hel"] Broken)
           (Scenario.ask "hello" None) initial "hello" [Scenario.text_chunk "Hel"]);
    reflexivity.
Defined.

(** X10.  The Express [/auth-token] handler never rejects and always makes
    one call and sends one reply.  The reply has status 200 only when the
    identity provider answered with success and a body that parses, and it
    is then that body; every other reply is the fixed payload with status
    500. *)
Theorem express_auth_token_answers_once (w : World) (e : env) (s : state) :
  let rq := auth_request (show (TENANT_ID e)) (show (CLIENT_ID e)) (show (CLIENT_SECRET e)) in
  fst (run (Express.post_auth_token w e) s) = inr tt
  /\ fetches (trace (snd (run (Express.post_auth_token w e) s))) = [rq]
  /\ exists reply,
       json_replies (trace (snd (run (Express.post_auth_token w e) s))) = [reply]
       /\ (reply = (500, error_object "Failed to fetch auth token")
           \/ exists resp data,
                fetch w 0%nat rq = Some resp /\ ok resp = true
                /\ JSON_parse w (text resp) = Some data /\ reply = (200, data)).
Proof.
  destruct s as [ds dump ss tr]. unfold Express.post_auth_token. unfold_monad. simpl.
  destruct (fetch w 0%nat _) as [resp|] eqn:Hfetch; simpl;
    [destruct (ok resp) eqn:Hok; simpl;
     [destruct (JSON_parse w (text resp)) as [data|] eqn:Hdata; simpl|]|];
    (split; [reflexivity|]; split; [reflexivity|]; eexists; split; [reflexivity|]).
  - right. exists resp, data. auto.
  - now left.
  - now left.
  - now left.
Qed.

(** X11.  The Express [/embed-token] handler, given a body that is an
    object, never rejects and always sends one reply.  It makes one call
    when the token converts to text, whatever the token is, and none when
    the conversion throws.  The reply is the upstream JSON with status 200
    when the call was made and the BI service answered with success and a
    body that parses, the fixed payload with status 500 otherwise. *)
Theorem express_embed_token_answers_once
    (w : World) (fields : list (string * value)) (s : state) :
  let tok := assoc "authToken" fields in
  fst (run (Express.post_embed_token w (VObj fields)) s) = inr tt
  /\ fetches (trace (snd (run (Express.post_embed_token w (VObj fields)) s)))
     = match to_string tok with
       | inr shown => [embed_request Lambda.GROUP_ID Lambda.REPORT_ID shown]
       | inl _ => []
       end
  /\ exists reply,
       json_replies (trace (snd (run (Express.post_embed_token w (VObj fields)) s))) = [reply]
       /\ (reply = (500, VObj [("error", VStr "Failed to get embed token")])
           \/ exists shown resp data,
                to_string tok = inr shown
                /\ fetch w 0%nat (embed_request Lambda.GROUP_ID Lambda.REPORT_ID shown)
                   = Some resp
                /\ ok resp = true
                /\ JSON_parse w (text resp) = Some data /\ reply = (200, data)).
Proof.
  destruct s as [ds dump ss tr]. unfold Express.post_embed_token. unfold_monad.
  cbn [get_prop]. cbv beta iota.
  unfold Lambda.GROUP_ID, Lambda.REPORT_ID.
  destruct (to_string (assoc "authToken" fields)) as [err|shown] eqn:Hshown; cbn [length];
    [split; [reflexivity|]; split; [reflexivity|]; eexists; split; [reflexivity|]; now left|].
  destruct (fetch w 0%nat _) as [resp|] eqn:Hfetch; simpl;
    [destruct (ok resp) eqn:Hok; simpl;
     [destruct (JSON_parse w (text resp)) as [data|] eqn:Hdata; simpl|]|];
    (split; [reflexivity|]; split; [reflexivity|]; eexists; split; [reflexivity|]).
  - right. exists shown, resp, data. auto.
  - now left.
  - now left.
  - now left.
Qed.

(** ** More on the dataset loader *)

Lemma filter_complete_twice (rows : list row) :
  List.filter Express.complete (List.filter Express.complete rows)
  = List.filter Express.complete rows.
Proof.
  induction rows as [|r rows IH]; [reflexivity|].
  simpl. destruct (Express.complete r) eqn:Hr; [|exact IH].
  simpl. rewrite Hr, IH. reflexivity.
Qed.

(** X12.  A file that is missing or does not parse does not stop the
    server: both loaders return normally, log the error once, and leave the
    dataset, the dump and the sessions as they were. *)
Theorem loadDataset_failure_changes_nothing (err : exn) (s : state) :
  Express.loadDataset (inl err) s
  = (inr tt, with_trace (trace s ++ [Console "error" [LStr "❌ Failed to load CSV:"; LErr err]]) s)
  /\ Session.loadDataset (inl err) s = Express.loadDataset (inl err) s
  /\ dataset (snd (Session.loadDataset (inl err) s)) = dataset s
  /\ fullDatasetDump (snd (Session.loadDataset (inl err) s)) = fullDatasetDump s.
Proof. destruct s. repeat split; reflexivity. Qed.

Lemma session_post_chat_globals (w : World) (body : chat_body) (s : state) :
  dataset (snd (run (Session.post_chat w body) s)) = dataset s
  /\ fullDatasetDump (snd (run (Session.post_chat w body) s)) = fullDatasetDump s.
Proof.
  destruct (truthy (message body)) eqn:Hmsg;
    [|rewrite (post_chat_rejected w body s Hmsg); now destruct s].
  destruct (to_string (message body)) as [e|shown] eqn:Hshown;
    [rewrite (post_chat_unconverted w body s e Hmsg Hshown); now destruct s|].
  destruct (Session.provider_answer w s body) as [[chunks ending|choices]|] eqn:Hanswer.
  - destruct (post_chat_streamed w body s shown chunks ending Hmsg Hshown Hanswer)
      as (r & new & _ & _ & ->).
    destruct r as [e|buffer]; [|destruct ending]; now destruct s.
  - destruct (post_chat_not_streamed w body s shown Hmsg Hshown) as (err & ->); [eauto|].
    now destruct s.
  - destruct (post_chat_not_streamed w body s shown Hmsg Hshown) as (err & ->); [eauto|].
    now destruct s.
Qed.

(** X13.  The dump stays the rendering of the dataset: if it is so before,
    it is so after any run of the loader of the session server, on rows or
    on a failure, and after any [/chat] request. *)
Theorem dump_stays_in_step
    (file : exn + list row) (w : World) (body : chat_body) (s : state) :
  dump_in_step s ->
  dump_in_step (snd (Session.loadDataset file s))
  /\ dump_in_step (snd (run (Session.post_chat w body) s)).
Proof.
  unfold dump_in_step. intros H. split.
  - destruct file as [err|rows]; destruct s; [exact H | reflexivity].
  - destruct (session_post_chat_globals w body s) as [-> ->]. exact H.
Qed.

Lemma dump_stays_in_step_witness :
  dump_in_step initial
  /\ dump_in_step (snd (Session.loadDataset (inr [Demo.runway; Demo.nameless]) initial)).
Proof.
  assert (dump_in_step initial) as H by reflexivity.
  split; [exact H|].
  apply (dump_stays_in_step (inr [Demo.runway; Demo.nameless]) Scenario.offline
           (Scenario.ask "hi" None) initial H).
Defined.

(** X14.  Loading is idempotent: loading again the rows that were kept
    keeps all of them, so the dataset and the dump do not change. *)
Theorem loadDataset_again_keeps_dataset (rows : list row) (s : state) :
  let once := snd (Session.loadDataset (inr rows) s) in
  let twice := snd (Session.loadDataset (inr (dataset once)) once) in
  dataset twice = dataset once
  /\ fullDatasetDump twice = fullDatasetDump once
  /\ dataset (snd (Express.loadDataset
                     (inr (dataset (snd (Express.loadDataset (inr rows) s))))
                     (snd (Express.loadDataset (inr rows) s))))
     = dataset (snd (Express.loadDataset (inr rows) s)).
Proof.
  destruct s as [ds dump ss tr]. cbv zeta.
  unfold Session.loadDataset, Express.loadDataset. unfold_monad.
  change Session.complete with Express.complete. simpl.
  rewrite !filter_complete_twice. repeat split; reflexivity.
Qed.

(** ** The session map across requests *)

(** Every request returns normally and either leaves the session map as it
    was or adds two turns to the history of its own session. *)
Lemma session_post_chat_sessions (w : World) (body : chat_body) (s : state) :
  fst (run (Session.post_chat w body) s) = inr tt
  /\ (sessions (snd (run (Session.post_chat w body) s)) = sessions s
      \/ exists reply,
           truthy (message body) = true
           /\ (exists chunks, Session.provider_answer w s body = Some (Streamed chunks Done))
           /\ sessions (snd (run (Session.post_chat w body) s))
              = <[sessionId body := Session.history_of s body
                                    ++ Session.stored_turns body reply]> (sessions s)).
Proof.
  destruct (truthy (message body)) eqn:Hmsg;
    [|rewrite (post_chat_rejected w body s Hmsg); split; [reflexivity|]; left;
      now destruct s].
  destruct (to_string (message body)) as [e|shown] eqn:Hshown;
    [rewrite (post_chat_unconverted w body s e Hmsg Hshown); split; [reflexivity|]; left;
     now destruct s|].
  destruct (Session.provider_answer w s body) as [[chunks ending|choices]|] eqn:Hanswer.
  - destruct (post_chat_streamed w body s shown chunks ending Hmsg Hshown Hanswer)
      as (r & new & _ & _ & ->).
    destruct r as [e|buffer]; [|destruct ending];
      (split; [reflexivity|]); try (left; now destruct s).
    right. exists buffer. split; [reflexivity|]. split; [eauto|]. now destruct s.
  - destruct (post_chat_not_streamed w body s shown Hmsg Hshown) as (err & ->); [eauto|].
    split; [reflexivity|]. left. now destruct s.
  - destruct (post_chat_not_streamed w body s shown Hmsg Hshown) as (err & ->); [eauto|].
    split; [reflexivity|]. left. now destruct s.
Qed.

(** X15.  A request does not touch the history of any other session:
    whatever happens to it, the turns stored under a different identifier
    are the same before and after. *)
Theorem other_sessions_are_untouched
    (w : World) (body : chat_body) (s : state) (id : option string) :
  id <> sessionId body ->
  sessions (snd (run (Session.post_chat w body) s)) !! id = sessions s !! id.
Proof.
  intros Hother.
  destruct (session_post_chat_sessions w body s) as [_ [-> | (reply & _ & _ & ->)]];
    [reflexivity|].
  apply lookup_insert_ne. congruence.
Qed.

Lemma other_sessions_are_untouched_witness :
  Some "s2" <> sessionId (Scenario.ask "hi" (Some "s1"))
  /\ sessions (snd (run (Session.post_chat Demo.steady (Scenario.ask "hi" (Some "s1")))
                      initial)) !! Some "s2"
     = sessions initial !! Some "s2".
Proof.
  assert (Some "s2" <> sessionId (Scenario.ask "hi" (Some "s1"))) as H by discriminate.
  split; [exact H|].
  apply (other_sessions_are_untouched Demo.steady (Scenario.ask "hi" (Some "s1")) initial
           (Some "s2") H).
Defined.

(** X16.  A request that is turned down, or whose streaming call fails or
    is never made, records nothing: the session map is left exactly as it
    was, so the user message of a failed request is not in the history of
    the next one. *)
Theorem failed_request_records_nothing (w : World) (body : chat_body) (s : state) :
  truthy (message body) = false \/ provider_fails (Session.provider_answer w s body) ->
  sessions (snd (run (Session.post_chat w body) s)) = sessions s.
Proof.
  intros Hfailed.
  destruct (session_post_chat_sessions w body s)
    as [_ [H | (reply & Hmsg & (chunks & Hanswer) & _)]]; [exact H|].
  destruct Hfailed as [Hbad | Hfails]; [congruence|].
  rewrite Hanswer in Hfails. destruct Hfails.
Qed.

Lemma failed_request_records_nothing_witness :
  provider_fails (Session.provider_answer
                    (Scenario.chatting [Scenario.text_chunk "Hel"] Broken) initial
                    (Scenario.ask "hello" (Some "s1")))
  /\ sessions (snd (run (Session.post_chat
                           (Scenario.chatting [Scenario.text_chunk "Hel"] Broken)
                           (Scenario.ask "hello" (Some "s1"))) initial))
     = sessions initial.
Proof.
  split; [exact I|].
  apply (failed_request_records_nothing
           (Scenario.chatting [Scenario.text_chunk "Hel"] Broken)
           (Scenario.ask "hello" (Some "s1")) initial).
  right. exact I.
Defined.


(** ** Requests that overlap *)

Section OverlapFacts.

Variable id : option string.
Variables turns1 turns2 : list turn.





End OverlapFacts.

(** ** Histories, in turn and overlapped *)







(** ** How the session handler ends a response *)

Lemma terminal_loop (t : list effect) :
  forallb loop_effect t = true -> existsb terminal t = false.
Proof.
  induction t as [|e t IH]; [reflexivity|].
  simpl. intros H. apply andb_true_iff in H as [He Ht].
  destruct e; try discriminate He; simpl; auto.
Qed.

(** X19.  The session handler always settles the response, once: whatever
    the request and the outside do, it returns normally, and the last thing
    it does to the response is the only [res.json] or [res.end] of the
    request. *)
Theorem session_chat_ends_once (w : World) (body : chat_body) (s : state) :
  fst (run (Session.post_chat w body) s) = inr tt
  /\ exists before final,
       trace (snd (run (Session.post_chat w body) s)) = before ++ [final]
       /\ terminal final = true
       /\ existsb terminal before = false.
Proof.
  destruct (truthy (message body)) eqn:Hmsg.
  - destruct (to_string (message body)) as [e|shown] eqn:Hshown.
    { rewrite (post_chat_unconverted w body s e Hmsg Hshown). split; [reflexivity|].
      exists (stream_headers
              ++ [Console "error" [LStr "❌ Chat stream error:"; LErr e]; Status 500]),
        (Json (error_object "Streaming chat failed.")).
      destruct s. repeat split; reflexivity. }
    destruct (Session.provider_answer w s body) as [[chunks ending|choices]|] eqn:Hanswer.
    + destruct (post_chat_streamed w body s shown chunks ending Hmsg Hshown Hanswer)
        as (r & new & Hloop & _ & ->).
      split; [destruct r as [e|b]; [|destruct ending]; reflexivity|].
      pose proof (terminal_loop new Hloop) as Hnone.
      assert (forall err,
                exists before final,
                  stream_headers ++ [Completion (Session.request_of s body shown)] ++ new
                  ++ [Console "error" [LStr "❌ Chat stream error:"; LErr err]]
                  ++ match written new with
                     | [] => [Status 500; Json (error_object "Streaming chat failed.")]
                     | _ => [End (Some (nl +:+ nl +:+ "[Error: Chat stream failed]"))]
                     end
                  = before ++ [final]
                  /\ terminal final = true /\ existsb terminal before = false) as Hfailed.
      { intros err. destruct (written new).
        - exists (stream_headers ++ [Completion (Session.request_of s body shown)] ++ new
                  ++ [Console "error" [LStr "❌ Chat stream error:"; LErr err]; Status 500]),
            (Json (error_object "Streaming chat failed.")).
          split; [simpl; rewrite <- ?app_assoc; reflexivity|].
          split; [reflexivity|]. simpl. rewrite existsb_app, Hnone. reflexivity.
        - exists (stream_headers ++ [Completion (Session.request_of s body shown)] ++ new
                  ++ [Console "error" [LStr "❌ Chat stream error:"; LErr err]]),
            (End (Some (nl +:+ nl +:+ "[Error: Chat stream failed]"))).
          split; [simpl; rewrite <- ?app_assoc; reflexivity|].
          split; [reflexivity|]. simpl. rewrite existsb_app, Hnone. reflexivity. }
      destruct r as [e|b]; [|destruct ending]; cbn [snd];
        rewrite ?with_trace_trace; unfold with_sessions; cbn [trace with_trace];
        try apply Hfailed.
      exists (stream_headers ++ [Completion (Session.request_of s body shown)] ++ new), (End None).
      split; [simpl; now rewrite <- ?app_assoc|]. split; [reflexivity|].
      simpl. exact Hnone.
    + destruct (post_chat_not_streamed w body s shown Hmsg Hshown) as (err & ->); [eauto|].
      split; [reflexivity|].
      exists (stream_headers
              ++ [Completion (Session.request_of s body shown);
                  Console "error" [LStr "❌ Chat stream error:"; LErr err]; Status 500]),
        (Json (error_object "Streaming chat failed.")).
      destruct s. repeat split; reflexivity.
    + destruct (post_chat_not_streamed w body s shown Hmsg Hshown) as (err & ->); [eauto|].
      split; [reflexivity|].
      exists (stream_headers
              ++ [Completion (Session.request_of s body shown);
                  Console "error" [LStr "❌ Chat stream error:"; LErr err]; Status 500]),
        (Json (error_object "Streaming chat failed.")).
      destruct s. repeat split; reflexivity.
  - rewrite (post_chat_rejected w body s Hmsg). split; [reflexivity|].
    exists [Status 400], (Json (error_object "Missing 'message'.")).
    destruct s. repeat split; reflexivity.
Qed.

(** ** Tool calls, one chunk at a time *)

(** X20.  A chunk whose tool call does not name [search], or names it with
    arguments that parse but hold no truthy query, only has its text
    relayed: nothing is searched, no completion is asked for, nothing is
    logged. *)
Theorem idle_tool_call_only_relays
    (w : World) (c : chunk) (buffer : string) (s : state) :
  Session.names_search (delta_tool_call c) = None
  \/ (exists f args q,
        Session.names_search (delta_tool_call c) = Some f
        /\ JSON_parse w (or_else (arguments f) "{}") = Some args
        /\ get_prop (Some args) "query" = inr q
        /\ truthy q = false) ->
  Session.on_chunk w c buffer s
  = (inr (buffer +:+ or_else (delta_content c) ""), with_trace (trace s ++ relayed c) s).
Proof.
  intros Hidle. destruct s as [ds dump ss tr].
  unfold Session.on_chunk, Session.read_query, relayed.
  destruct Hidle as [-> | (f & args & q & -> & Hparse & Hquery & Hfalsy)];
    unfold_monad; rewrite ?Hparse, ?Hquery, ?Hfalsy;
    (destruct (String.eqb (or_else (delta_content c) "") "") eqn:Htoken; simpl;
     [apply String.eqb_eq in Htoken; rewrite Htoken, append_nil_r, app_nil_r; reflexivity
     |reflexivity]).
Qed.

Lemma idle_tool_call_only_relays_witness :
  Session.names_search (delta_tool_call (Scenario.search_chunk "{}"))
  = Some {| name := Some "search"; arguments := Some "{}" |}
  /\ Session.on_chunk Demo.steady (Scenario.search_chunk "{}") "so far" initial
     = (inr ("so far" +:+ ""), with_trace ([] ++ []) initial).
Proof.
  split; [reflexivity|].
  apply (idle_tool_call_only_relays Demo.steady (Scenario.search_chunk "{}") "so far" initial).
  right. exists {| name := Some "search"; arguments := Some "{}" |}, (VObj []), None.
  repeat split; reflexivity.
Defined.



(** ** What a whole request spends *)

Lemma searches_app (t u : list effect) : searches (t ++ u) = searches t ++ searches u.
Proof. apply flat_map_app. Qed.

Section Budget.

Variable w : World.

#[local] Arguments to_string : simpl never.
#[local] Arguments truthy : simpl never.

(** One chunk: at most one search, and only for a tool call that names
    [search]; at most one completion, and only after a search. *)
Lemma on_chunk_budget (c : chunk) (buffer : string) (s : state) :
  exists r new,
    Session.on_chunk w c buffer s = (r, with_trace (trace s ++ new) s)
    /\ (length (searches new) <= if asks_search c then 1 else 0)%nat
    /\ (length (completions new) <= length (searches new))%nat.
Proof.
  destruct s as [ds dump ss tr].
  unfold Session.on_chunk, Session.read_query, Session.web_search, asks_search.
  unfold_monad. simpl.
  destruct (String.eqb (or_else (delta_content c) "") "") eqn:Htoken; simpl;
    (destruct (Session.names_search (delta_tool_call c)) as [f|]; simpl;
     [destruct (JSON_parse w (or_else (arguments f) "{}")) as [args|]; simpl|]);
    case_matches;
    rewrite <- ?app_assoc; simpl;
    (first [ eexists _, []; rewrite app_nil_r; split; [reflexivity|]
           | eexists _, _; split; [reflexivity|] ]);
    simpl; split; lia.
Qed.

Lemma for_each_budget (chunks : list chunk) (buffer : string) (s : state) :
  exists r new,
    for_each chunks (Session.on_chunk w) buffer s
    = (r, with_trace (trace s ++ new) s)
    /\ (length (searches new) <= length (List.filter asks_search chunks))%nat
    /\ (length (completions new) <= length (searches new))%nat.
Proof.
  revert buffer s. induction chunks as [|c rest IH]; intros buffer s.
  - exists (inr buffer), []. simpl. rewrite app_nil_r. unfold ret.
    split; [now destruct s|]. split; lia.
  - destruct (on_chunk_budget c buffer s) as (r1 & new1 & Hrun1 & Hs1 & Hc1).
    destruct r1 as [e|b1].
    + exists (inl e), new1. simpl for_each. unfold bind. rewrite Hrun1.
      split; [reflexivity|]. simpl. destruct (asks_search c); simpl in *; lia.
    + destruct (IH b1 (with_trace (trace s ++ new1) s)) as (r2 & new2 & Hrun2 & Hs2 & Hc2).
      exists r2, (new1 ++ new2). simpl for_each. unfold bind. rewrite Hrun1, Hrun2.
      rewrite with_trace_trace, with_trace_twice, app_assoc.
      split; [reflexivity|].
      rewrite searches_app, completions_app, !length_app. simpl.
      destruct (asks_search c); simpl; lia.
Qed.

End Budget.

(** X22.  No request searches more often than its stream has chunks with a
    tool call that names [search], and none asks the provider for more than
    the streaming completion and one follow-up for each search. *)
Theorem chat_request_budget
    (w : World) (body : chat_body) (s : state) (chunks : list chunk) (ending : stream_end) :
  Session.provider_answer w s body = Some (Streamed chunks ending) ->
  (length (searches (trace (snd (run (Session.post_chat w body) s))))
   <= length (List.filter asks_search chunks))%nat
  /\ (length (completions (trace (snd (run (Session.post_chat w body) s))))
      <= 1 + length (searches (trace (snd (run (Session.post_chat w body) s)))))%nat.
Proof.
  intros Hanswer. destruct (truthy (message body)) eqn:Hmsg;
    [|rewrite (post_chat_rejected w body s Hmsg); destruct s; simpl; lia].
  destruct (to_string (message body)) as [e|shown] eqn:Hshown;
    [rewrite (post_chat_unconverted w body s e Hmsg Hshown); destruct s; simpl; lia|].
  destruct s as [ds dump ss tr]. unfold_handler. rewrite Hmsg. simpl.
  rewrite Hshown in Hanswer |- *. simpl. rewrite Hanswer.
  match goal with
  | |- context [for_each chunks ?b ?acc ?st] =>
      destruct (for_each_budget w chunks acc st) as (r & new & Hrun & Hs & Hc);
      rewrite Hrun
  end.
  simpl. destruct r as [e|buffer]; [|destruct ending]; simpl;
    repeat (rewrite ?searches_app, ?completions_app, ?length_app; simpl);
    try lia;
    destruct (existsb sends_headers _); simpl;
    repeat (rewrite ?searches_app, ?completions_app, ?length_app; simpl);
    try (destruct (existsb sends_headers _); simpl;
         repeat (rewrite ?searches_app, ?completions_app, ?length_app; simpl));
    lia.
Qed.

Lemma chat_request_budget_witness :
  Session.provider_answer
    (Scenario.chatting [Scenario.search_chunk (JSON_stringify Scenario.query_args);
                        Scenario.search_chunk "{"; Scenario.text_chunk "Done."] Done)
    initial (Scenario.ask "news?" None)
  = Some (Streamed [Scenario.search_chunk (JSON_stringify Scenario.query_args);
                    Scenario.search_chunk "{"; Scenario.text_chunk "Done."] Done)
  /\ (length (searches (trace (snd (run (Session.post_chat
         (Scenario.chatting [Scenario.search_chunk (JSON_stringify Scenario.query_args);
                             Scenario.search_chunk "{"; Scenario.text_chunk "Done."] Done)
         (Scenario.ask "news?" None)) initial)))) <= 2)%nat.
Proof.
  split; [reflexivity|].
  apply (chat_request_budget
           (Scenario.chatting [Scenario.search_chunk (JSON_stringify Scenario.query_args);
                               Scenario.search_chunk "{"; Scenario.text_chunk "Done."] Done)
           (Scenario.ask "news?" None) initial
           [Scenario.search_chunk (JSON_stringify Scenario.query_args);
            Scenario.search_chunk "{"; Scenario.text_chunk "Done."] Done).
  reflexivity.
Defined.



(** ** The keyword-filter handler *)

Section KeywordHandler.

Variable lower : string -> string.
Variable w : World.

(** The handler, outcome by outcome. *)
Lemma keyword_chat_run (body : chat_body) (s : state) :
  run (Keyword.post_chat lower w body) s
  = match message body with
    | Some (VStr text) =>
        let lowerMsg := lower text in
        let rows := Keyword.relevantRows lower (dataset s) lowerMsg in
        if String.eqb text "" then
          (inr tt, with_trace [Status 400; Json (error_object "Missing or invalid 'message'.")] s)
        else if negb (Keyword.isRelevant lowerMsg) then
          (inr tt, with_trace [Json Keyword.off_topic] s)
        else if Nat.eqb (length rows) 0 then
          (inr tt, with_trace [Json Keyword.nothing_found] s)
        else
          match completions_create w 3%nat (Keyword.chat_request rows text) with
          | Some (Streamed chunks ending) =>
              (match ending with Done => inr tt | Broken => inl NetworkError end,
               with_trace (stream_headers ++ [Completion (Keyword.chat_request rows text)]
                           ++ List.map echo chunks
                           ++ match ending with Done => [End None] | Broken => [] end) s)
          | Some (Completed _) =>
              (inl TypeError,
               with_trace (stream_headers ++ [Completion (Keyword.chat_request rows text)]) s)
          | None =>
              (inl NetworkError,
               with_trace (stream_headers ++ [Completion (Keyword.chat_request rows text)]) s)
          end
    | _ =>
        (inr tt, with_trace [Status 400; Json (error_object "Missing or invalid 'message'.")] s)
    end.
Proof.
  destruct s as [ds dump ss tr]. unfold Keyword.post_chat, for_await.
  destruct (message body) as [[| b | n | text | items | fields]|]; try reflexivity;
    try (destruct b; reflexivity).
  - unfold_monad. simpl. destruct (String.eqb n "0"); reflexivity.
  - unfold_monad. simpl. destruct (String.eqb text ""); simpl; [reflexivity|].
    destruct (Keyword.isRelevant (lower text)); simpl; [|reflexivity].
    destruct (Nat.eqb (length (Keyword.relevantRows lower ds (lower text))) 0); simpl;
      [reflexivity|].
    destruct (completions_create w 3%nat _) as [[chunks ending|choices]|]; simpl;
      [|reflexivity|reflexivity].
    rewrite relay_loop. simpl. destruct ending; simpl; [reflexivity|].
    rewrite app_nil_r. reflexivity.
Qed.

(** The gate is open: the message is a string with the text [text], it is
    relevant, and some row mentions it. *)
Lemma keyword_gate_open (body : chat_body) (s : state) (text : string) :
  let rows := Keyword.relevantRows lower (dataset s) (lower text) in
  to_string (message body) = inr text ->
  truthy (message body) && is_string (message body) && Keyword.isRelevant (lower text)
  && negb (Nat.eqb (length rows) 0) = true ->
  run (Keyword.post_chat lower w body) s
  = match completions_create w 3%nat (Keyword.chat_request rows text) with
    | Some (Streamed chunks ending) =>
        (match ending with Done => inr tt | Broken => inl NetworkError end,
         with_trace (stream_headers ++ [Completion (Keyword.chat_request rows text)]
                     ++ List.map echo chunks
                     ++ match ending with Done => [End None] | Broken => [] end) s)
    | Some (Completed _) =>
        (inl TypeError,
         with_trace (stream_headers ++ [Completion (Keyword.chat_request rows text)]) s)
    | None =>
        (inl NetworkError,
         with_trace (stream_headers ++ [Completion (Keyword.chat_request rows text)]) s)
    end.
Proof.
  cbv zeta. intros Htext Hgate.
  apply andb_true_iff in Hgate as [Hgate Hrows].
  apply andb_true_iff in Hgate as [Hgate Hrel].
  apply andb_true_iff in Hgate as [Hmsg Hstr].
  apply negb_true_iff in Hrows.
  rewrite keyword_chat_run. rewrite (string_converts _ _ Hstr Htext) in Hmsg |- *.
  cbv zeta. simpl in Hmsg. apply negb_true_iff in Hmsg. rewrite Hmsg, Hrel, Hrows.
  reflexivity.
Qed.

End KeywordHandler.





(** A column named by an array index comes first in the text of a row,
    wherever it stands in the header: with the header [INFRA_ID, NAME, 7,
    AI_TYPE, TASKS] the message [ai 19] is found in the row, and a message
    read off the line in header order is not. *)
Example keyword_chat_reads_index_columns_first :
  Keyword.row_text Demo.numbered = "ai 19 zz Generative AI video"
  /\ Keyword.mentions Demo.lower "ai 19" Demo.numbered = true
  /\ Keyword.mentions Demo.lower "zz ai" Demo.numbered = false
  /\ completions
       (trace (snd (run (Keyword.post_chat Demo.lower Scenario.offline
                           (Scenario.ask "AI 19" None))
                      {| dataset := [Demo.numbered]; fullDatasetDump := "";
                         sessions := ∅; trace := [] |})))
     = [Keyword.chat_request [Demo.numbered] "AI 19"].
Proof. vm_compute. repeat split; reflexivity. Qed.

(** X26.  The keyword-filter handler has no [catch]: once the three headers
    are set, a provider that rejects the call, answers with something that
    is not a stream, or breaks the stream makes the handler reject, and the
    response is left without a payload and without an end. *)
Theorem keyword_chat_failure_is_unhandled
    (lower : string -> string) (w : World) (body : chat_body) (s : state) (text : string) :
  to_string (message body) = inr text ->
  truthy (message body) && is_string (message body)
  && Keyword.isRelevant (lower text)
  && negb (Nat.eqb (length (Keyword.relevantRows lower (dataset s) (lower text))) 0) = true ->
  provider_fails
    (completions_create w 3%nat
       (Keyword.chat_request (Keyword.relevantRows lower (dataset s) (lower text)) text)) ->
  (exists err, fst (run (Keyword.post_chat lower w body) s) = inl err)
  /\ existsb terminal (trace (snd (run (Keyword.post_chat lower w body) s))) = false.
Proof.
  intros Htext Hgate Hfails. rewrite (keyword_gate_open lower w body s text Htext Hgate).
  destruct (completions_create w 3%nat _) as [[chunks [|]|choices]|];
    [destruct Hfails|..]; cbn [fst snd]; rewrite with_trace_trace;
    (split; [eexists; reflexivity|]); [|reflexivity..].
  simpl. rewrite app_nil_r. clear. induction chunks; [reflexivity | assumption].
Qed.

Lemma keyword_chat_failure_is_unhandled_witness :
  provider_fails
    (completions_create Scenario.offline 3%nat
       (Keyword.chat_request
          (Keyword.relevantRows Demo.lower (dataset Demo.loaded) (Demo.lower "Generative AI"))
          "Generative AI"))
  /\ existsb terminal
       (trace (snd (run (Keyword.post_chat Demo.lower Scenario.offline
                           (Scenario.ask "Generative AI" None)) Demo.loaded))) = false.
Proof.
  split; [exact I|].
  apply (keyword_chat_failure_is_unhandled Demo.lower Scenario.offline
           (Scenario.ask "Generative AI" None) Demo.loaded "Generative AI");
    [reflexivity | reflexivity | exact I].
Defined.

(** X27.  When its call to the provider is answered with a stream that
    ends, the keyword-filter handler relays one write for each chunk, in
    order, and closes the response. *)
Theorem keyword_chat_relays_every_chunk
    (lower : string -> string) (w : World) (body : chat_body) (s : state) (text : string)
    (chunks : list chunk) :
  to_string (message body) = inr text ->
  truthy (message body) && is_string (message body)
  && Keyword.isRelevant (lower text)
  && negb (Nat.eqb (length (Keyword.relevantRows lower (dataset s) (lower text))) 0) = true ->
  completions_create w 3%nat
    (Keyword.chat_request (Keyword.relevantRows lower (dataset s) (lower text)) text)
  = Some (Streamed chunks Done) ->
  fst (run (Keyword.post_chat lower w body) s) = inr tt
  /\ written (trace (snd (run (Keyword.post_chat lower w body) s)))
     = List.map (fun c => or_else (delta_content c) "") chunks
  /\ exists before,
       trace (snd (run (Keyword.post_chat lower w body) s)) = before ++ [End None]
       /\ existsb terminal before = false.
Proof.
  intros Htext Hgate Hanswer.
  rewrite (keyword_gate_open lower w body s text Htext Hgate), Hanswer.
  cbn [fst snd]. rewrite with_trace_trace. split; [reflexivity|]. split.
  - simpl. rewrite written_app, written_echo. simpl. apply app_nil_r.
  - eexists (stream_headers ++ [Completion _] ++ List.map echo chunks).
    split; [now rewrite <- !app_assoc|].
    simpl. clear. induction chunks; [reflexivity | assumption].
Qed.

Lemma keyword_chat_relays_every_chunk_witness :
  completions_create Demo.steady 3%nat
    (Keyword.chat_request
       (Keyword.relevantRows Demo.lower (dataset Demo.loaded) (Demo.lower "Generative AI"))
       "Generative AI")
  = Some (Streamed [Scenario.text_chunk "Hel"; Scenario.text_chunk "lo"] Done)
  /\ written (trace (snd (run (Keyword.post_chat Demo.lower Demo.steady
                                 (Scenario.ask "Generative AI" None)) Demo.loaded)))
     = ["Hel"; "lo"].
Proof.
  split; [reflexivity|].
  apply (keyword_chat_relays_every_chunk Demo.lower Demo.steady
           (Scenario.ask "Generative AI" None) Demo.loaded "Generative AI"
           [Scenario.text_chunk "Hel"; Scenario.text_chunk "lo"]); reflexivity.
Defined.

(** ** What the chat handlers leave alone *)

Lemma echo_is_silent (chunks : list chunk) :
  searches (List.map echo chunks) = [] /\ fetches (List.map echo chunks) = []
  /\ completions (List.map echo chunks) = [].
Proof. induction chunks as [|c rest IH]; [repeat split | exact IH]. Qed.

(** The first handler, outcome by outcome: a 400, or the headers, the one
    request, and a tail that calls no one. *)
Lemma express_chat_shape (w : World) (body : chat_body) (s : state) :
  snd (run (Express.post_chat w body) s)
  = with_trace [Status 400; Json (error_object "Missing or invalid 'message'.")] s
  \/ exists tail text,
       to_string (message body) = inr text
       /\ snd (run (Express.post_chat w body) s)
          = with_trace (stream_headers
                        ++ [Completion (Express.chat_request (dataset s) text)]
                        ++ tail) s
       /\ searches tail = [] /\ fetches tail = [] /\ completions tail = [].
Proof.
  destruct s as [ds dump ss tr]. unfold Express.post_chat, for_await.
  destruct (message body) as [[| b | n | text | items | fields]|];
    try (left; reflexivity); try (left; destruct b; reflexivity).
  - left. simpl. destruct (String.eqb n "0"); reflexivity.
  - simpl. destruct (String.eqb text ""); simpl; [left; reflexivity|]. right.
    unfold_monad. simpl.
    destruct (completions_create w 3%nat _) as [[chunks ending|choices]|]; simpl;
      [|eexists _, text; split; [reflexivity|]; split; [reflexivity | repeat split]..].
    rewrite relay_loop. simpl.
    destruct (echo_is_silent chunks) as (Hs & Hf & Hc).
    destruct ending; simpl.
    + eexists (List.map echo chunks ++ [End None]), text. split; [reflexivity|].
      split; [reflexivity|].
      rewrite searches_app, fetches_app, completions_app, Hs, Hf, Hc. repeat split.
    + destruct (existsb sends_headers _); simpl.
      * eexists (List.map echo chunks ++ [_; _]), text. split; [reflexivity|].
        split; [rewrite <- !app_assoc; reflexivity|].
        rewrite searches_app, fetches_app, completions_app, Hs, Hf, Hc. repeat split.
      * eexists (List.map echo chunks ++ [_; _; _]), text. split; [reflexivity|].
        split; [rewrite <- !app_assoc; reflexivity|].
        rewrite searches_app, fetches_app, completions_app, Hs, Hf, Hc. repeat split.
Qed.

(** X28.  No [/chat] handler changes the dataset or the dump, and only the
    session handler writes to the session map: after a request to the first
    handler or to the keyword-filter handler all three are as before, and
    after a request to the session handler the dataset and the dump are. *)
Theorem chat_handlers_keep_the_globals
    (lower : string -> string) (w : World) (body : chat_body) (s : state) :
  (dataset (snd (run (Express.post_chat w body) s)) = dataset s
   /\ fullDatasetDump (snd (run (Express.post_chat w body) s)) = fullDatasetDump s
   /\ sessions (snd (run (Express.post_chat w body) s)) = sessions s)
  /\ (dataset (snd (run (Keyword.post_chat lower w body) s)) = dataset s
      /\ fullDatasetDump (snd (run (Keyword.post_chat lower w body) s)) = fullDatasetDump s
      /\ sessions (snd (run (Keyword.post_chat lower w body) s)) = sessions s)
  /\ (dataset (snd (run (Session.post_chat w body) s)) = dataset s
      /\ fullDatasetDump (snd (run (Session.post_chat w body) s)) = fullDatasetDump s).
Proof.
  split; [|split].
  - destruct (express_chat_shape w body s) as [-> | (tail & text & _ & -> & _)];
      destruct s; repeat split; reflexivity.
  - rewrite keyword_chat_run.
    destruct (message body) as [[| b | n | text | items | fields]|];
      try (destruct s; repeat split; reflexivity).
    cbv zeta. destruct (String.eqb text ""); [destruct s; repeat split; reflexivity|].
    destruct (negb (Keyword.isRelevant (lower text)));
      [destruct s; repeat split; reflexivity|].
    destruct (Nat.eqb _ 0); [destruct s; repeat split; reflexivity|].
    destruct (completions_create w 3%nat _) as [[chunks ending|choices]|];
      destruct s; repeat split; reflexivity.
  - apply session_post_chat_globals.
Qed.

(** X29.  The first handler offers the [search] tool with its one request
    to the provider and never runs a search: whatever the stream holds, a
    request makes no search, no outbound HTTP call, and no second call to
    the provider. *)
Theorem express_chat_never_searches (w : World) (body : chat_body) (s : state) :
  searches (trace (snd (run (Express.post_chat w body) s))) = []
  /\ fetches (trace (snd (run (Express.post_chat w body) s))) = []
  /\ (completions (trace (snd (run (Express.post_chat w body) s))) = []
      \/ exists text,
           to_string (message body) = inr text
           /\ completions (trace (snd (run (Express.post_chat w body) s)))
              = [Express.chat_request (dataset s) text])
  /\ forall text, tools (Express.chat_request (dataset s) text) = ["search"].
Proof.
  destruct (express_chat_shape w body s) as [-> | (tail & text & Htext & -> & Hs & Hf & Hc)];
    rewrite with_trace_trace.
  - repeat split. now left.
  - simpl. rewrite Hs, Hf, Hc. repeat split. right. exists text. split; [exact Htext|].
    reflexivity.
Qed.

(** X30.  A body that does not parse is read as the empty object: on the
    embed route the Lambda logs the parse error and answers 400 for a
    missing token, with no outbound call. *)
Theorem lambda_unparsable_body_is_a_missing_token
    (w : World) (e : env) (ev : Lambda.event) (s : state) :
  Lambda.is_post ev "/embed-token" = true ->
  nonempty (Lambda.ev_body ev) = true ->
  JSON_parse w (show (Lambda.ev_body ev)) = None ->
  run (Lambda.handler w e ev) s
  = (inr (Lambda.json_result 400 (error_object "Missing 'authToken' in request body")),
     with_trace [Console "error" [LStr "Failed to parse JSON body:"; LErr SyntaxError]] s).
Proof.
  intros Hroute Hbody Hparse. destruct s as [ds dump ss tr].
  unfold run, Lambda.handler, Lambda.request_body, Lambda.handleEmbedToken.
  rewrite (is_post_not_options _ _ Hroute), (is_post_exclusive _ Hroute), Hroute, Hbody.
  unfold_monad. rewrite Hparse. reflexivity.
Qed.

Lemma lambda_unparsable_body_is_a_missing_token_witness :
  JSON_parse Scenario.offline "{authToken:" = None
  /\ fst (run (Lambda.handler Scenario.offline Demo.full_env
                 (Scenario.post "/embed-token" (Some "{authToken:"))) initial)
     = inr (Lambda.json_result 400 (error_object "Missing 'authToken' in request body")).
Proof.
  split; [reflexivity|].
  rewrite (lambda_unparsable_body_is_a_missing_token Scenario.offline Demo.full_env
             (Scenario.post "/embed-token" (Some "{authToken:")) initial
             eq_refl eq_refl eq_refl).
  reflexivity.
Defined.
